(** * smart_page_ai: the popup controller (frontend/popup.js)

    A shallow embedding of the popup script of the extension.  The script is
    event driven: DOM listeners and promise callbacks read and write one
    global array ([chatHistory]), a handful of DOM elements, and
    [localStorage].  Every listener is embedded as a program of a small
    state-and-exception monad over a record holding exactly those parts; an
    event of the browser runs one listener to completion. *)

From stdpp Require Import base strings list gmap.

Open Scope string_scope.
Open Scope list_scope.

(** ** JavaScript values *)

(** The values the script handles: what [JSON.parse] can return, plus
    [undefined].  The script computes with no number: it tests one and
    prints one, so a number is given by whether it is zero and by the text
    JavaScript prints it as.  An object is its list of own properties; the
    first binding of a name is the property. *)
#[warnings="-register-all"]
Inductive jsval : Type :=
  | VUndefined
  | VNull
  | VBool (b : bool)
  | VNum (zero : bool) (printed_as : string)
  | VStr (s : string)
  | VArr (items : list jsval)
  | VObj (fields : list (string * jsval)).

(** [if (v)], [!v], [a || b]. *)
Definition truthy (v : jsval) : bool :=
  match v with
  | VUndefined | VNull => false
  | VBool b => b
  | VNum zero _ => negb zero
  | VStr s => negb (String.eqb s "")
  | VArr _ | VObj _ => true
  end.

(** [name in fields]: the object has an own property of that name. *)
Definition has_own_property (name : string) (fields : list (string * jsval)) : bool :=
  existsb (fun field => String.eqb (fst field) name) fields.

(** The conversion of [v] to a string throws: [v] is an object whose own
    [toString] hides the one every object inherits (no value of
    [JSON.parse] is a function), or an array that holds such an object. *)
Fixpoint unprintable (v : jsval) : bool :=
  match v with
  | VArr items =>
      (fix any (l : list jsval) : bool :=
         match l with
         | [] => false
         | x :: rest => unprintable x || any rest
         end) items
  | VObj fields => has_own_property "toString" fields
  | _ => false
  end.

(** The string of [v], where the conversion returns. *)
Fixpoint printed (v : jsval) : string :=
  match v with
  | VUndefined => "undefined"
  | VNull => "null"
  | VBool true => "true"
  | VBool false => "false"
  | VNum _ text => text
  | VStr s => s
  | VArr items =>
      (fix join (l : list jsval) : string :=
         match l with
         | [] => ""
         | x :: rest =>
             let sx := match x with
                       | VUndefined | VNull => ""
                       | _ => printed x
                       end in
             match rest with
             | [] => sx
             | _ :: _ => sx +:+ "," +:+ join rest
             end
         end) items
  | VObj _ => "[object Object]"
  end.

(** [v === s] for a string literal [s]. *)
Definition is_string (v : jsval) (s : string) : bool :=
  match v with
  | VStr t => String.eqb t s
  | _ => false
  end.

(** [o.name] on an object made by [JSON.parse]. *)
Fixpoint own_property (name : string) (fields : list (string * jsval)) : jsval :=
  match fields with
  | [] => VUndefined
  | (k, v) :: rest => if String.eqb k name then v else own_property name rest
  end.

(** [s.includes(sub)] and [s.endsWith(suffix)]. *)
Fixpoint includes (s sub : string) : bool :=
  String.prefix sub s ||
  match s with
  | EmptyString => false
  | String _ rest => includes rest sub
  end.

Definition endsWith (s suffix : string) : bool :=
  String.prefix (String.rev suffix) (String.rev s).

(** ** What the script takes from its host *)

(** A thrown [Error]; the script reads only its [message]. *)
Record exn : Type := JsError { message : string }.

(** Result of a call that may throw. *)
Inductive completion (A : Type) : Type :=
  | Normal (a : A)
  | Throw (e : exn).
Arguments Normal {A} a.
Arguments Throw {A} e.

(** [`${v}`]: the string a template literal puts in place of [v], or the
    [TypeError] of the conversion. *)
Definition to_string (v : jsval) : completion string :=
  if unprintable v
  then Throw (JsError "Cannot convert object to primitive value")
  else Normal (printed v).

(** Library and browser functions the script calls and that are not part of
    it: [String.prototype.trim], [marked.parse] (which may throw), and
    [new URLSearchParams(new URL(u).search).get(name)]. *)
Class Host : Type := {
  trim : string -> string;
  marked_parse : jsval -> completion string;
  search_param : string -> string -> option string;
}.

(** ** The page *)

(** A message [div] of the chat window.  The listener of the copy button
    writes the clipboard and the label of the button only; it is left
    out. *)
Inductive node_body : Type :=
  | TextContent (text : string)          (* .textContent = text *)
  | TypingIndicator                      (* the three typing dots *)
  | Rendered (html : string).            (* marked's output and the copy button *)

Record node : Type := {
  node_id : nat;
  className : string;
  body : node_body;
}.

(** The elements of popup.html the script touches, with the properties it
    reads or writes. *)
Record dom : Type := {
  chatWindow : list node;            (* children of #chat-window *)
  emptyState : bool;                 (* .empty-state is in #chat-window *)
  created : nat;                     (* elements created so far *)
  status_className : string;         (* #status .className *)
  status_text : string;              (* #status .status-text .textContent *)
  askButton_disabled : bool;
  questionInput_disabled : bool;
  questionInput_value : string;
  processButton_disabled : bool;
  processButton_loading : bool;      (* class 'loading' on #processButton *)
  quickPrompts_display : string;     (* #quickPromptsContainer .style.display *)
  data_theme : option string;        (* attribute data-theme of <html> *)
  theme_icon : string;               (* .theme-icon .textContent *)
}.

(** ** Requests and callbacks in flight *)

Record request : Type := {
  url : string;
  method : string;
  headers : list (string * string);
  body_json : jsval;                 (* the value given to JSON.stringify *)
}.

(** Which promise chain a [fetch] continues with. *)
Inductive continuation : Type :=
  | AskChain (thinkingMessage : nat)  (* the chain built in sendQuestion *)
  | ProcessChain.                     (* the chain built in fetchAndProcess *)

Inductive async_op : Type :=
  | Fetch (req : request) (k : continuation)
  | TabsQuery                         (* chrome.tabs.query(..., callback) *)
  | ExecuteScript (tabId : Z).        (* chrome.scripting.executeScript *)

(** ** The state of the popup *)

Record state : Type := {
  chatHistory : list jsval;
  page : dom;
  localStorage : gmap string string;
  pending : list (nat * async_op);
  started : nat;                     (* asynchronous operations started so far *)
}.

Definition with_chatHistory (h : list jsval) (s : state) : state :=
  {| chatHistory := h; page := page s; localStorage := localStorage s;
     pending := pending s; started := started s |}.

Definition with_page (d : dom) (s : state) : state :=
  {| chatHistory := chatHistory s; page := d; localStorage := localStorage s;
     pending := pending s; started := started s |}.

Definition with_localStorage (l : gmap string string) (s : state) : state :=
  {| chatHistory := chatHistory s; page := page s; localStorage := l;
     pending := pending s; started := started s |}.

Definition with_pending (p : list (nat * async_op)) (n : nat) (s : state) : state :=
  {| chatHistory := chatHistory s; page := page s; localStorage := localStorage s;
     pending := p; started := n |}.

Module Dom.

Definition set_chatWindow (w : list node) (e : bool) (d : dom) : dom :=
  {| chatWindow := w; emptyState := e; created := created d;
     status_className := status_className d; status_text := status_text d;
     askButton_disabled := askButton_disabled d;
     questionInput_disabled := questionInput_disabled d;
     questionInput_value := questionInput_value d;
     processButton_disabled := processButton_disabled d;
     processButton_loading := processButton_loading d;
     quickPrompts_display := quickPrompts_display d;
     data_theme := data_theme d; theme_icon := theme_icon d |}.

Definition set_created (n : nat) (d : dom) : dom :=
  {| chatWindow := chatWindow d; emptyState := emptyState d; created := n;
     status_className := status_className d; status_text := status_text d;
     askButton_disabled := askButton_disabled d;
     questionInput_disabled := questionInput_disabled d;
     questionInput_value := questionInput_value d;
     processButton_disabled := processButton_disabled d;
     processButton_loading := processButton_loading d;
     quickPrompts_display := quickPrompts_display d;
     data_theme := data_theme d; theme_icon := theme_icon d |}.

Definition set_status (c t : string) (d : dom) : dom :=
  {| chatWindow := chatWindow d; emptyState := emptyState d; created := created d;
     status_className := c; status_text := t;
     askButton_disabled := askButton_disabled d;
     questionInput_disabled := questionInput_disabled d;
     questionInput_value := questionInput_value d;
     processButton_disabled := processButton_disabled d;
     processButton_loading := processButton_loading d;
     quickPrompts_display := quickPrompts_display d;
     data_theme := data_theme d; theme_icon := theme_icon d |}.

Definition set_askButton_disabled (b : bool) (d : dom) : dom :=
  {| chatWindow := chatWindow d; emptyState := emptyState d; created := created d;
     status_className := status_className d; status_text := status_text d;
     askButton_disabled := b;
     questionInput_disabled := questionInput_disabled d;
     questionInput_value := questionInput_value d;
     processButton_disabled := processButton_disabled d;
     processButton_loading := processButton_loading d;
     quickPrompts_display := quickPrompts_display d;
     data_theme := data_theme d; theme_icon := theme_icon d |}.

Definition set_questionInput_disabled (b : bool) (d : dom) : dom :=
  {| chatWindow := chatWindow d; emptyState := emptyState d; created := created d;
     status_className := status_className d; status_text := status_text d;
     askButton_disabled := askButton_disabled d;
     questionInput_disabled := b;
     questionInput_value := questionInput_value d;
     processButton_disabled := processButton_disabled d;
     processButton_loading := processButton_loading d;
     quickPrompts_display := quickPrompts_display d;
     data_theme := data_theme d; theme_icon := theme_icon d |}.

Definition set_questionInput_value (v : string) (d : dom) : dom :=
  {| chatWindow := chatWindow d; emptyState := emptyState d; created := created d;
     status_className := status_className d; status_text := status_text d;
     askButton_disabled := askButton_disabled d;
     questionInput_disabled := questionInput_disabled d;
     questionInput_value := v;
     processButton_disabled := processButton_disabled d;
     processButton_loading := processButton_loading d;
     quickPrompts_display := quickPrompts_display d;
     data_theme := data_theme d; theme_icon := theme_icon d |}.

Definition set_processButton (disabled loading : bool) (d : dom) : dom :=
  {| chatWindow := chatWindow d; emptyState := emptyState d; created := created d;
     status_className := status_className d; status_text := status_text d;
     askButton_disabled := askButton_disabled d;
     questionInput_disabled := questionInput_disabled d;
     questionInput_value := questionInput_value d;
     processButton_disabled := disabled;
     processButton_loading := loading;
     quickPrompts_display := quickPrompts_display d;
     data_theme := data_theme d; theme_icon := theme_icon d |}.

Definition set_quickPrompts_display (v : string) (d : dom) : dom :=
  {| chatWindow := chatWindow d; emptyState := emptyState d; created := created d;
     status_className := status_className d; status_text := status_text d;
     askButton_disabled := askButton_disabled d;
     questionInput_disabled := questionInput_disabled d;
     questionInput_value := questionInput_value d;
     processButton_disabled := processButton_disabled d;
     processButton_loading := processButton_loading d;
     quickPrompts_display := v;
     data_theme := data_theme d; theme_icon := theme_icon d |}.

Definition set_data_theme (t : string) (d : dom) : dom :=
  {| chatWindow := chatWindow d; emptyState := emptyState d; created := created d;
     status_className := status_className d; status_text := status_text d;
     askButton_disabled := askButton_disabled d;
     questionInput_disabled := questionInput_disabled d;
     questionInput_value := questionInput_value d;
     processButton_disabled := processButton_disabled d;
     processButton_loading := processButton_loading d;
     quickPrompts_display := quickPrompts_display d;
     data_theme := Some t; theme_icon := theme_icon d |}.

Definition set_theme_icon (t : string) (d : dom) : dom :=
  {| chatWindow := chatWindow d; emptyState := emptyState d; created := created d;
     status_className := status_className d; status_text := status_text d;
     askButton_disabled := askButton_disabled d;
     questionInput_disabled := questionInput_disabled d;
     questionInput_value := questionInput_value d;
     processButton_disabled := processButton_disabled d;
     processButton_loading := processButton_loading d;
     quickPrompts_display := quickPrompts_display d;
     data_theme := data_theme d; theme_icon := t |}.

End Dom.

(** ** The monad of listeners: state and exceptions *)

Definition js (A : Type) : Type := state -> completion A * state.

#[global] Instance js_ret : MRet js := fun A (a : A) s => (Normal a, s).

#[global] Instance js_bind : MBind js := fun A B (k : A -> js B) (m : js A) s =>
  match m s with
  | (Normal a, s') => k a s'
  | (Throw e, s') => (Throw e, s')
  end.

Definition throw {A : Type} (e : exn) : js A := fun s => (Throw e, s).

(** [try { m } catch (e) { handler(e) }], and a promise chain's [.catch]. *)
Definition try_catch {A : Type} (m : js A) (handler : exn -> js A) : js A := fun s =>
  match m s with
  | (Normal a, s') => (Normal a, s')
  | (Throw e, s') => handler e s'
  end.

(** A promise chain's [.finally]: [after] runs either way, and the chain
    stays rejected when [m] threw. *)
Definition finally {A : Type} (m : js A) (after : js unit) : js A := fun s =>
  match m s with
  | (r, s') =>
      match after s' with
      | (Normal _, s'') => (r, s'')
      | (Throw e, s'') => (Throw e, s'')
      end
  end.

Definition modify (f : state -> state) : js unit := fun s => (Normal tt, f s).
Definition gets {A : Type} (f : state -> A) : js A := fun s => (Normal (f s), s).
Definition modify_page (f : dom -> dom) : js unit :=
  modify (fun s => with_page (f (page s)) s).

(** A listener runs to completion; an exception nobody catches ends it and
    is reported on the console, the writes made so far stay. *)
Definition run {A : Type} (m : js A) (s : state) : state := snd (m s).

(** ** The script *)

Section Script.

Context `{Host}.

Definition createElement : js nat :=
  n ← gets (fun s => created (page s));
  modify_page (Dom.set_created (S n));;
  mret n.

Definition appendChild (n : node) : js unit :=
  modify_page (fun d => Dom.set_chatWindow (chatWindow d ++ [n]) (emptyState d) d).

(** [element.remove()] on a message [div]; nothing happens when the
    element is no longer in the chat window. *)
Definition remove_node (id : nat) : js unit :=
  modify_page (fun d =>
    Dom.set_chatWindow
      (filter (fun n => node_id n ≠ id) (chatWindow d)) (emptyState d) d).

(** [chatWindow.innerHTML = ''] *)
Definition clear_chatWindow : js unit :=
  modify_page (Dom.set_chatWindow [] false).

(** The [textContent] setter: [null] and [undefined] give the empty text,
    a string gives itself.  The listeners hand [sendQuestion] a string or
    [null] only; for an object whose conversion would throw, the text here
    is the one of a plain object. *)
Definition textContent_of (v : jsval) : string :=
  match v with
  | VUndefined | VNull => ""
  | _ => printed v
  end.

(** [`${v}`] in a listener. *)
Definition template (v : jsval) : js string :=
  match to_string v with
  | Normal text => mret text
  | Throw e => throw e
  end.

(** [marked.parse(text)] *)
Definition marked (text : jsval) : js string :=
  match marked_parse text with
  | Normal html => mret html
  | Throw e => throw e
  end.

(** popup.js, lines 8-55. *)
Definition addMessageToChat (sender : string) (text : jsval) : js nat :=
  modify_page (fun d => Dom.set_chatWindow (chatWindow d) false d);;
  messageDiv ← createElement;
  let cls := if String.eqb sender "user"
             then "message user-message" else "message ai-message" in
  content ← (if String.eqb sender "user" then mret (TextContent (textContent_of text))
             else if is_string text "Thinking..." then mret TypingIndicator
             else html ← marked text; mret (Rendered html));
  appendChild {| node_id := messageDiv; className := cls; body := content |};;
  mret messageDiv.

(** popup.js, lines 62-68. *)
Definition updateStatus (status text : string) : js unit :=
  modify_page (Dom.set_status ("status-badge " +:+ status) text).

(** An asynchronous operation starts; its callback runs in a later event. *)
Definition start (op : async_op) : js unit :=
  modify (fun s => with_pending (pending s ++ [(started s, op)]) (S (started s)) s).

(** [fetch(u, {method: 'POST', headers: {...}, body: JSON.stringify(b)})]
    followed by the promise chain [k]. *)
Definition post (u : string) (b : jsval) (k : continuation) : js unit :=
  start (Fetch {| url := u; method := "POST";
                  headers := [("Content-Type", "application/json")];
                  body_json := b |} k).

(** [chatHistory.push(record)] *)
Definition push (record : jsval) : js unit :=
  modify (fun s => with_chatHistory (chatHistory s ++ [record]) s).

(** The object literal [{ type: speaker, content: content }]. *)
Definition message_record (speaker : string) (content : jsval) : jsval :=
  VObj [("type", VStr speaker); ("content", content)].

(** popup.js, lines 74-98: [sendQuestion] up to the call of [fetch]. *)
Definition sendQuestion (question : jsval) : js unit :=
  if negb (truthy question) then mret tt else
  addMessageToChat "user" question;;
  push (message_record "human" question);;
  modify_page (Dom.set_questionInput_value "");;
  modify_page (Dom.set_askButton_disabled true);;
  modify_page (Dom.set_questionInput_disabled true);;
  thinkingMessage ← addMessageToChat "ai" (VStr "Thinking...");
  history ← gets chatHistory;
  post "http://127.0.0.1:5000/ask"
       (VObj [("question", question); ("history", VArr history)])
       (AskChain thinkingMessage).

(** [data.name]; reading a property of [null] or [undefined] throws. *)
Definition property (data : jsval) (name : string) : completion jsval :=
  match data with
  | VUndefined =>
      Throw (JsError ("Cannot read properties of undefined (reading '" +:+ name +:+ "')"))
  | VNull =>
      Throw (JsError ("Cannot read properties of null (reading '" +:+ name +:+ "')"))
  | VObj fields => Normal (own_property name fields)
  | _ => Normal VUndefined
  end.

Definition get (data : jsval) (name : string) : js jsval :=
  match property data name with
  | Normal v => mret v
  | Throw e => throw e
  end.

(** What [fetch(...).then(response => response.json())] settles to. *)
Inductive fetch_result : Type :=
  | Resolved (data : jsval)
  | Rejected (error : exn).

Definition settle (r : fetch_result) : js jsval :=
  match r with
  | Resolved data => mret data
  | Rejected error => throw error
  end.

(** popup.js, lines 100-117: the rest of the chain of [sendQuestion]. *)
Definition ask_then (thinkingMessage : nat) (data : jsval) : js unit :=
  remove_node thinkingMessage;;
  error ← get data "error";
  if truthy error then
    text ← template error;
    addMessageToChat "ai" (VStr ("❌ Error: " +:+ text));; mret tt
  else
    answer ← get data "answer";
    addMessageToChat "ai" answer;;
    push (message_record "ai" answer).

Definition ask_catch (thinkingMessage : nat) (error : exn) : js unit :=
  remove_node thinkingMessage;;
  addMessageToChat "ai" (VStr ("❌ Error: " +:+ message error));; mret tt.

(** [questionInput.focus()] moves the keyboard focus, which no listener
    reads; it is left out, as is the scrolling of the chat window. *)
Definition ask_finally : js unit :=
  modify_page (Dom.set_askButton_disabled false);;
  modify_page (Dom.set_questionInput_disabled false).

Definition ask_chain (thinkingMessage : nat) (r : fetch_result) : js unit :=
  finally
    (try_catch (data ← settle r; ask_then thinkingMessage data)
               (ask_catch thinkingMessage))
    ask_finally.

(** popup.js, lines 227-232. *)
Definition showError (errorMessage : jsval) : js unit :=
  status ← template errorMessage;
  updateStatus "error" ("Error: " +:+ status);;
  text ← template errorMessage;
  addMessageToChat "ai" (VStr ("❌ Error: " +:+ text));;
  modify_page (Dom.set_processButton false false).

(** popup.js, lines 198-224. *)
Definition fetchAndProcess (u : string) (b : jsval) : js unit :=
  post u b ProcessChain.

Definition process_then (data : jsval) : js unit :=
  error ← get data "error";
  if truthy error then showError error
  else
    updateStatus "ready" "Ready to answer questions!";;
    modify_page (Dom.set_askButton_disabled false);;
    modify_page (Dom.set_questionInput_disabled false);;
    modify_page (Dom.set_quickPrompts_display "flex");;
    clear_chatWindow;;
    addMessageToChat "ai" (VStr "✅ I've finished reading. What would you like to know?");;
    mret tt.

Definition process_catch (error : exn) : js unit :=
  showError (VStr ("Cannot connect to backend server. " +:+ message error)).

Definition process_finally : js unit :=
  modify_page (Dom.set_processButton false false).

Definition process_chain (r : fetch_result) : js unit :=
  finally
    (try_catch (data ← settle r; process_then data) process_catch)
    process_finally.

(** popup.js, lines 150-161: the listener of the process button, up to
    the call of [chrome.tabs.query]. *)
Definition processButton_onclick : js unit :=
  updateStatus "processing" "Processing...";;
  modify_page (Dom.set_processButton true true);;
  modify_page (Dom.set_askButton_disabled true);;
  modify_page (Dom.set_questionInput_disabled true);;
  modify_page (Dom.set_quickPrompts_display "none");;
  clear_chatWindow;;
  modify (with_chatHistory []);;
  addMessageToChat "ai" (VStr "🔍 Figuring out what to read...");;
  start TabsQuery.

(** A tab as [chrome.tabs.query] reports it; [url] is there only when the
    extension may see it. *)
Record tab : Type := { tab_id : Z; tab_url : option string }.

(** popup.js, lines 161-194: the callback of [chrome.tabs.query]. *)
Definition tabs_callback (tabs : list tab) : js unit :=
  match tabs with
  | [] => throw (JsError "Cannot read properties of undefined (reading 'url')")
  | activeTab :: _ =>
      match tab_url activeTab with
      | None => throw (JsError "Cannot read properties of undefined (reading 'endsWith')")
      | Some pageUrl =>
          if endsWith pageUrl ".pdf" then
            addMessageToChat "ai" (VStr "📄 Found a PDF! Fetching and reading...");;
            fetchAndProcess "http://127.0.0.1:5000/process_pdf"
                            (VObj [("pdf_url", VStr pageUrl)])
          else if includes pageUrl "youtube.com/watch" then
            match search_param pageUrl "v" with
            | Some videoId =>
                if truthy (VStr videoId) then
                  addMessageToChat "ai"
                    (VStr "🎥 Found a YouTube video! Fetching transcript...");;
                  fetchAndProcess "http://127.0.0.1:5000/process_youtube"
                                  (VObj [("videoId", VStr videoId)])
                else showError (VStr "Could not find YouTube video ID")
            | None => showError (VStr "Could not find YouTube video ID")
            end
          else
            addMessageToChat "ai" (VStr "🌐 Reading the webpage content...");;
            start (ExecuteScript (tab_id activeTab))
      end
  end.

(** popup.js, lines 185-192: the callback of [executeScript].  Each
    injection result is an object, given here by its [result]. *)
Definition script_callback (lastError : bool)
    (injectionResults : option (list jsval)) : js unit :=
  match lastError, injectionResults with
  | false, Some (pageHtml :: _) =>
      fetchAndProcess "http://127.0.0.1:5000/process_webpage"
                      (VObj [("content", pageHtml)])
  | _, _ => showError (VStr "Could not access this page")
  end.

(** popup.js, lines 144-147. *)
Definition updateThemeIcon (theme : string) : js unit :=
  modify_page (Dom.set_theme_icon (if String.eqb theme "light" then "🌙" else "☀️")).

(** [localStorage.getItem('theme') || 'light'] *)
Definition savedTheme (storage : gmap string string) : string :=
  match storage !! "theme" with
  | Some t => if truthy (VStr t) then t else "light"
  | None => "light"
  end.

(** popup.js, lines 130-133: what the [DOMContentLoaded] listener does
    besides registering the other listeners. *)
Definition DOMContentLoaded : js unit :=
  theme ← gets (fun s => savedTheme (localStorage s));
  modify_page (Dom.set_data_theme theme);;
  updateThemeIcon theme.

(** popup.js, lines 136-142. *)
Definition themeToggle_onclick : js unit :=
  currentTheme ← gets (fun s => data_theme (page s));
  let newTheme := match currentTheme with
                  | Some t => if String.eqb t "light" then "dark" else "light"
                  | None => "light"
                  end in
  modify_page (Dom.set_data_theme newTheme);;
  modify (fun s => with_localStorage (<["theme" := newTheme]> (localStorage s)) s);;
  updateThemeIcon newTheme.

(** popup.js, lines 235-238. *)
Definition askButton_onclick : js unit :=
  value ← gets (fun s => questionInput_value (page s));
  sendQuestion (VStr (trim value)).

(** [askButton.click()], by the user or by the script: a disabled button
    dispatches no click. *)
Definition askButton_click : js unit :=
  disabled ← gets (fun s => askButton_disabled (page s));
  if (disabled : bool) then mret tt else askButton_onclick.

(** popup.js, lines 241-245. *)
Definition questionInput_onkeypress (key : string) : js unit :=
  disabled ← gets (fun s => askButton_disabled (page s));
  if String.eqb key "Enter" && negb (disabled : bool) then askButton_click else mret tt.

(** popup.js, lines 248-253; [data_prompt] is the button's attribute,
    [null] when it has none. *)
Definition quickPrompt_onclick (data_prompt : option string) : js unit :=
  sendQuestion (match data_prompt with Some p => VStr p | None => VNull end).

(** ** Events *)

(** What an asynchronous operation hands to its callback. *)
Inductive async_result : Type :=
  | FetchSettled (r : fetch_result)
  | TabsFound (tabs : list tab)
  | ScriptInjected (lastError : bool) (injectionResults : option (list jsval)).

Inductive event : Type :=
  | UserTypes (text : string)            (* edits #questionInput *)
  | ClickAsk
  | PressKey (key : string)              (* a key pressed in #questionInput *)
  | ClickQuickPrompt (data_prompt : option string)
  | ClickProcess
  | ClickThemeToggle
  | Settles (id : nat) (r : async_result).

Definition find_op (id : nat) (p : list (nat * async_op)) : option async_op :=
  snd <$> List.find (fun o => Nat.eqb (fst o) id) p.

Definition remove_op (id : nat) (p : list (nat * async_op)) : list (nat * async_op) :=
  List.filter (fun o => negb (Nat.eqb (fst o) id)) p.

Definition complete (id : nat) : js unit :=
  modify (fun s => with_pending (remove_op id (pending s)) (started s) s).

(** An operation in flight settles and its callback runs. *)
Definition settles (id : nat) (r : async_result) : js unit :=
  p ← gets pending;
  match find_op id p, r with
  | Some (Fetch _ (AskChain thinkingMessage)), FetchSettled fr =>
      complete id;; ask_chain thinkingMessage fr
  | Some (Fetch _ ProcessChain), FetchSettled fr =>
      complete id;; process_chain fr
  | Some TabsQuery, TabsFound tabs =>
      complete id;; tabs_callback tabs
  | Some (ExecuteScript _), ScriptInjected lastError injectionResults =>
      complete id;; script_callback lastError injectionResults
  | _, _ => mret tt
  end.

(** The browser hands an event to its listener.  A disabled control takes
    no click and no key.  Where the quick-prompt buttons sit in popup.html
    is not known here, so a click on one is possible in every state. *)
Definition dispatch (ev : event) : js unit :=
  match ev with
  | UserTypes text =>
      disabled ← gets (fun s => questionInput_disabled (page s));
      if (disabled : bool) then mret tt
      else modify_page (Dom.set_questionInput_value text)
  | ClickAsk => askButton_click
  | PressKey key =>
      disabled ← gets (fun s => questionInput_disabled (page s));
      if (disabled : bool) then mret tt else questionInput_onkeypress key
  | ClickQuickPrompt data_prompt => quickPrompt_onclick data_prompt
  | ClickProcess =>
      disabled ← gets (fun s => processButton_disabled (page s));
      if (disabled : bool) then mret tt else processButton_onclick
  | ClickThemeToggle => themeToggle_onclick
  | Settles id r => settles id r
  end.

Definition step (ev : event) (s : state) : state := run (dispatch ev) s.

Definition steps (evs : list event) (s : state) : state :=
  fold_left (fun s ev => step ev s) evs s.

(** The popup opens: line 1 and the [DOMContentLoaded] listener run on
    the page as popup.html gives it, with the storage of the extension. *)
Definition open_popup (html : dom) (storage : gmap string string) : state :=
  run DOMContentLoaded
      {| chatHistory := []; page := html; localStorage := storage;
         pending := []; started := 0 |}.

(** The states of the popup over the life of the extension: it is opened
    first on a storage that holds no theme, events happen, and it can be
    closed and opened again, which keeps the storage only. *)
Inductive reachable : state -> Prop :=
  | reachable_first html storage :
      storage !! "theme" = None ->
      reachable (open_popup html storage)
  | reachable_step s ev :
      reachable s -> reachable (step ev s)
  | reachable_reopen s html :
      reachable s -> reachable (open_popup html (localStorage s)).

End Script.

(** ** A host and a page to run the script on *)

Module Sample.

Definition is_space (c : Ascii.ascii) : bool :=
  let n := Ascii.nat_of_ascii c in
  (Nat.eqb n 32 || (Nat.leb 9 n && Nat.leb n 13))%bool.

Fixpoint trim_start (s : string) : string :=
  match s with
  | String c rest => if is_space c then trim_start rest else s
  | EmptyString => EmptyString
  end.

Definition trim_spaces (s : string) : string :=
  String.rev (trim_start (String.rev (trim_start s))).

(** [marked.parse] as the library documents it: a string is rendered,
    anything else is refused. *)
Definition render (v : jsval) : completion string :=
  match v with
  | VStr s => Normal ("<p>" +:+ s +:+ "</p>")
  | VUndefined | VNull =>
      Throw (JsError "marked(): input parameter is undefined or null")
  | _ => Throw (JsError "marked(): input parameter is of type [object Object], string expected")
  end.

(** The value of [v] in a watch URL of the form [...?v=ID]. *)
Fixpoint after_v (s : string) : option string :=
  if String.prefix "?v=" s then Some (String.substring 3 (String.length s - 3) s)
  else match s with
       | String _ rest => after_v rest
       | EmptyString => None
       end.

Definition param (u name : string) : option string :=
  if String.eqb name "v" then after_v u else None.

#[export] Instance host : Host :=
  {| trim := trim_spaces; marked_parse := render; search_param := param |}.

(** popup.html before any script ran: an empty chat with its placeholder,
    every control enabled. *)
Definition html : dom :=
  {| chatWindow := []; emptyState := true; created := 0;
     status_className := "status-badge idle"; status_text := "Ready";
     askButton_disabled := false; questionInput_disabled := false;
     questionInput_value := "";
     processButton_disabled := false; processButton_loading := false;
     quickPrompts_display := "";
     data_theme := None; theme_icon := "" |}.

Definition pdf_tab : tab :=
  {| tab_id := 7; tab_url := Some "https://example.org/paper.pdf" |}.

(** The popup after a page was processed. *)
Definition ready : state :=
  steps [ClickProcess; Settles 0 (TabsFound [pdf_tab]);
         Settles 1 (FetchSettled (Resolved (VObj [])))]
        (open_popup html ∅).

End Sample.

(** ** What the properties below speak about *)

Section Notions.

Context `{Host}.

(** [addMessageToChat('ai', v)] returns: [v] is the thinking marker or
    [marked.parse] accepts it. *)
Definition displays (v : jsval) : bool :=
  is_string v "Thinking..." ||
  match marked_parse v with
  | Normal _ => true
  | Throw _ => false
  end.

(** [marked.parse] renders every string. *)
Definition renders_strings : Prop :=
  forall text, exists html, marked_parse (VStr text) = Normal html.

(** [marked.parse] takes strings only. *)
Definition refuses_non_strings : Prop :=
  forall v html, marked_parse v = Normal html -> exists text, v = VStr text.

(** The events by which the user asks a question. *)
Definition asks (ev : event) : bool :=
  match ev with
  | ClickAsk | ClickQuickPrompt _ => true
  | PressKey key => String.eqb key "Enter"
  | _ => false
  end.

(** The ways the chat history changes in one event. *)
Inductive history_change (h : list jsval) : event -> list jsval -> Prop :=
  | history_kept ev :
      history_change h ev h
  | history_question ev question :
      asks ev = true ->
      question <> "" ->
      history_change h ev (h ++ [message_record "human" (VStr question)])
  | history_answer id data answer :
      property data "answer" = Normal answer ->
      displays answer = true ->
      history_change h (Settles id (FetchSettled (Resolved data)))
                     (h ++ [message_record "ai" answer])
  | history_cleared :
      history_change h ClickProcess [].

(** A record of the shape [{name: "human"|"ai", content: string}]. *)
Definition speaker_record (name : string) (r : jsval) : Prop :=
  exists speaker content,
    r = VObj [(name, VStr speaker); ("content", VStr content)] /\
    (speaker = "human" \/ speaker = "ai").

(** The message with which a question send fails, if it does: the
    request or the parsing of its response failed, or the response
    reports an error, whose text is the message unless it cannot be
    printed. *)
Definition ask_failure (r : fetch_result) : option string :=
  match r with
  | Rejected error => Some (message error)
  | Resolved data =>
      match property data "error" with
      | Normal error =>
          if truthy error
          then Some (match to_string error with
                     | Normal text => text
                     | Throw e => message e
                     end)
          else None
      | Throw e => Some (message e)
      end
  end.

(** The same for the processing of a page. *)
Definition process_failure (r : fetch_result) : option string :=
  match r with
  | Rejected error => Some ("Cannot connect to backend server. " +:+ message error)
  | Resolved data =>
      match property data "error" with
      | Normal error =>
          if truthy error
          then Some (match to_string error with
                     | Normal text => text
                     | Throw e => "Cannot connect to backend server. " +:+ message e
                     end)
          else None
      | Throw e => Some ("Cannot connect to backend server. " +:+ message e)
      end
  end.

(** The active tab is a YouTube watch page whose address names no video. *)
Definition missing_video_id (tabs : list tab) : bool :=
  match tabs with
  | activeTab :: _ =>
      match tab_url activeTab with
      | Some pageUrl =>
          negb (endsWith pageUrl ".pdf") &&
          includes pageUrl "youtube.com/watch" &&
          negb (match search_param pageUrl "v" with
                | Some videoId => truthy (VStr videoId)
                | None => false
                end)
      | None => false
      end
  | [] => false
  end.

(** The injected script gave no result. *)
Definition page_inaccessible (lastError : bool)
    (injectionResults : option (list jsval)) : bool :=
  lastError ||
  match injectionResults with
  | Some (_ :: _) => false
  | _ => true
  end.

(** The message with which operation [op] fails when it settles to [r],
    if it does. *)
Definition failure (op : async_op) (r : async_result) : option string :=
  match op, r with
  | Fetch _ (AskChain _), FetchSettled fr => ask_failure fr
  | Fetch _ ProcessChain, FetchSettled fr => process_failure fr
  | TabsQuery, TabsFound tabs =>
      if missing_video_id tabs then Some "Could not find YouTube video ID" else None
  | ExecuteScript _, ScriptInjected lastError injectionResults =>
      if page_inaccessible lastError injectionResults
      then Some "Could not access this page" else None
  | _, _ => None
  end.

(** One message saying [text] was added below the messages [kept]. *)
Definition error_shown (text : string) (kept : list node) (before after : state) : Prop :=
  exists html,
    marked_parse (VStr ("❌ Error: " +:+ text)) = Normal html /\
    chatWindow (page after) =
      kept ++ [{| node_id := created (page before);
                  className := "message ai-message";
                  body := Rendered html |}].


Definition status_kept (before after : state) : Prop :=
  status_className (page after) = status_className (page before) /\
  status_text (page after) = status_text (page before).


(** A request has one of the four wire formats. *)
Definition wire_format (req : request) (k : continuation) : Prop :=
  method req = "POST" /\
  headers req = [("Content-Type", "application/json")] /\
  ((url req = "http://127.0.0.1:5000/ask" /\
    (exists question history,
        body_json req = VObj [("question", question); ("history", VArr history)]) /\
    (exists thinkingMessage, k = AskChain thinkingMessage))
   \/
   (url req = "http://127.0.0.1:5000/process_pdf" /\
    (exists pdf_url, body_json req = VObj [("pdf_url", VStr pdf_url)]) /\
    k = ProcessChain)
   \/
   (url req = "http://127.0.0.1:5000/process_youtube" /\
    (exists videoId, body_json req = VObj [("videoId", VStr videoId)]) /\
    k = ProcessChain)
   \/
   (url req = "http://127.0.0.1:5000/process_webpage" /\
    (exists content, body_json req = VObj [("content", content)]) /\
    k = ProcessChain)).

(** An operation was in flight [before] already, or it is a request in one
    of the four wire formats (or no request at all). *)
Definition old_or_wire_format (before : state) (o : nat * async_op) : Prop :=
  In o (pending before) \/
  match snd o with
  | Fetch req k => wire_format req k
  | TabsQuery | ExecuteScript _ => True
  end.

(** The ask button, the question input and the process button are all
    disabled, or all enabled. *)
Definition controls_are (disabled : bool) (s : state) : Prop :=
  askButton_disabled (page s) = disabled /\
  questionInput_disabled (page s) = disabled /\
  processButton_disabled (page s) = disabled.

(** The requests in flight. *)
Definition is_fetch (o : nat * async_op) : bool :=
  match snd o with
  | Fetch _ _ => true
  | TabsQuery | ExecuteScript _ => false
  end.

Definition in_flight (s : state) : nat :=
  length (List.filter is_fetch (pending s)).

(** The operations in flight are numbered below the next number. *)
Definition well_numbered (s : state) : Prop :=
  Forall (fun o => fst o < started s) (pending s).

(** The request [sendQuestion] makes for [question] in state [s]. *)
Definition ask_request (question : jsval) (s : state) : request :=
  {| url := "http://127.0.0.1:5000/ask"; method := "POST";
     headers := [("Content-Type", "application/json")];
     body_json :=
       VObj [("question", question);
             ("history", VArr (chatHistory s ++ [message_record "human" question]))] |}.

(** The request of [fetch(endpoint, {method: 'POST', headers: {'Content-Type':
    'application/json'}, body: JSON.stringify(body)})]. *)
Definition json_post (endpoint : string) (body : jsval) : request :=
  {| url := endpoint; method := "POST";
     headers := [("Content-Type", "application/json")];
     body_json := body |}.

Definition light_or_dark (theme : string) : Prop :=
  theme = "light" \/ theme = "dark".

(** The page shows [theme], and [theme] is what the storage holds, light
    standing for nothing stored. *)
Definition current_theme (s : state) (theme : string) : Prop :=
  data_theme (page s) = Some theme /\
  (localStorage s !! "theme" = Some theme \/
   (localStorage s !! "theme" = None /\ theme = "light")).

End Notions.

(** ** What the further properties speak about *)

Section MoreNotions.

Context `{Host}.

(** The messages [addMessageToChat] makes. *)
Definition user_message (id : nat) (text : string) : node :=
  {| node_id := id; className := "message user-message"; body := TextContent text |}.

Definition ai_message (id : nat) (content : node_body) : node :=
  {| node_id := id; className := "message ai-message"; body := content |}.

(** What the answer shows: the dots again when the answer is the very text
    of the thinking marker, the rendered answer otherwise. *)
Definition answer_body (answer : jsval) (html : string) : node_body :=
  if is_string answer "Thinking..." then TypingIndicator else Rendered html.

(** The typing indicator of a question in flight. *)
Definition thinking_of (o : nat * async_op) : option nat :=
  match snd o with
  | Fetch _ (AskChain thinkingMessage) => Some thinkingMessage
  | _ => None
  end.

(** Every message of the chat window, and the typing indicator of every
    question in flight, is an element created earlier. *)
Definition identified (s : state) : Prop :=
  Forall (fun n => node_id n < created (page s)) (chatWindow (page s)) /\
  Forall (fun o => match thinking_of o with
                   | Some thinkingMessage => thinkingMessage < created (page s)
                   | None => True
                   end) (pending s).

(** The ways the status badge changes in one event. *)
Inductive badge_change (before : dom) : event -> dom -> Prop :=
  | badge_kept ev after :
      status_className after = status_className before ->
      status_text after = status_text before ->
      badge_change before ev after
  | badge_processing after :
      status_className after = "status-badge processing" ->
      status_text after = "Processing..." ->
      badge_change before ClickProcess after
  | badge_ready id r after :
      status_className after = "status-badge ready" ->
      status_text after = "Ready to answer questions!" ->
      badge_change before (Settles id (FetchSettled r)) after
  | badge_error id r text after :
      status_className after = "status-badge error" ->
      status_text after = "Error: " +:+ text ->
      badge_change before (Settles id r) after.

(** The part of the popup a question and its answer leave alone. *)
Definition beside_questions (s : state) :=
  (status_className (page s), status_text (page s),
   processButton_disabled (page s), processButton_loading (page s),
   quickPrompts_display (page s), data_theme (page s), theme_icon (page s),
   localStorage s).

(** The event sends a question or settles the request of one. *)
Definition question_event (s : state) (ev : event) : bool :=
  match ev with
  | ClickAsk | PressKey _ | ClickQuickPrompt _ => true
  | Settles id (FetchSettled _) =>
      match find_op id (pending s) with
      | Some (Fetch _ (AskChain _)) => true
      | _ => false
      end
  | _ => false
  end.


(** The popup shows that it is processing: the badge says so, the
    controls are disabled and the quick prompts hidden. *)
Definition popup_processing (s : state) : Prop :=
  status_className (page s) = "status-badge processing" /\
  status_text (page s) = "Processing..." /\
  controls_are true s /\
  processButton_loading (page s) = true /\
  quickPrompts_display (page s) = "none".


(** There is no tab, or the active tab does not give its address. *)
Definition no_address (tabs : list tab) : bool :=
  match tabs with
  | [] => true
  | activeTab :: _ =>
      match tab_url activeTab with
      | None => true
      | Some _ => false
      end
  end.


(** The operation belongs to the processing of a page. *)
Definition processing_op (op : async_op) : bool :=
  match op with
  | Fetch _ (AskChain _) => false
  | _ => true
  end.

(** After a failure the process button can be clicked again, and the
    controls for questions, the quick prompts and the history are as they
    were. *)
Definition retry_only (before after : state) : Prop :=
  processButton_disabled (page after) = false /\
  processButton_loading (page after) = false /\
  askButton_disabled (page after) = askButton_disabled (page before) /\
  questionInput_disabled (page after) = questionInput_disabled (page before) /\
  quickPrompts_display (page after) = quickPrompts_display (page before) /\
  chatHistory after = chatHistory before.

(** The icon of the toggle offers the other theme: a moon on the light
    page, a sun on the dark one. *)
Definition icon_matches (s : state) : Prop :=
  exists theme,
    data_theme (page s) = Some theme /\
    theme_icon (page s) = if String.eqb theme "light" then "🌙" else "☀️".

(** The request of a question carries the question, which is not empty,
    and a history that ends with the record of that very question. *)
Definition carries_own_question (o : nat * async_op) : Prop :=
  match snd o with
  | Fetch req (AskChain _) =>
      exists question earlier,
        question <> "" /\
        body_json req =
          VObj [("question", VStr question);
                ("history", VArr (earlier ++ [message_record "human" (VStr question)]))]
  | _ => True
  end.

End MoreNotions.

(** ** The copy button (popup.js, lines 38-48) *)

Module CopyButton.

(** The button of one rendered message: its label and the callbacks in
    flight, the promises of [navigator.clipboard.writeText] and the
    timers of [setTimeout]. *)
Record button : Type := {
  label : string;                    (* copyBtn.textContent *)
  writes : nat;
  timers : nat;
}.

Inductive copy_event : Type :=
  | Click                            (* the user clicks the button *)
  | Written                          (* a writeText promise is fulfilled *)
  | Refused                          (* a writeText promise is rejected *)
  | TimerFired.                      (* 1500 ms after a fulfilled write *)

(** The button as lines 38-41 make it. *)
Definition created_button : button :=
  {| label := "📋"; writes := 0; timers := 0 |}.

(** The listener of line 42 and its callbacks: the click starts a write;
    a fulfilled write shows the check mark and starts a timer; a refused
    one is logged; the timer shows the clipboard icon. *)
Definition copy_step (ev : copy_event) (b : button) : button :=
  match ev with
  | Click =>
      {| label := label b; writes := S (writes b); timers := timers b |}
  | Written =>
      match writes b with
      | 0 => b
      | S w => {| label := "✅"; writes := w; timers := S (timers b) |}
      end
  | Refused =>
      match writes b with
      | 0 => b
      | S w => {| label := label b; writes := w; timers := timers b |}
      end
  | TimerFired =>
      match timers b with
      | 0 => b
      | S t => {| label := "📋"; writes := writes b; timers := t |}
      end
  end.

Definition copy_steps (evs : list copy_event) (b : button) : button :=
  fold_left (fun b ev => copy_step ev b) evs b.

(** The check mark is shown only while a timer runs that will take it
    back. *)
Definition reverting (b : button) : Prop :=
  label b = "📋" \/ (label b = "✅" /\ 0 < timers b).

End CopyButton.

(** ** Running the script symbolically *)

Ltac unfold_script :=
  repeat progress unfold
    steps, step, run, open_popup, dispatch, settles, complete,
    askButton_click, askButton_onclick, questionInput_onkeypress,
    quickPrompt_onclick, processButton_onclick, themeToggle_onclick,
    DOMContentLoaded, tabs_callback, script_callback,
    ask_chain, process_chain, ask_then, ask_catch, ask_finally,
    process_then, process_catch, process_finally, showError,
    fetchAndProcess, sendQuestion, updateStatus, updateThemeIcon,
    addMessageToChat, marked, template, get, settle, post, start, push,
    clear_chatWindow, remove_node, appendChild, createElement,
    finally, try_catch, throw, modify_page, modify, gets,
    mbind, mret, js_bind, js_ret in *.

(** Case analysis on the innermost test the evaluation is stuck on. *)
Ltac split_innermost :=
  match goal with
  | |- context [match ?x with _ => _ end] =>
      lazymatch x with
      | context [match _ with _ => _ end] => fail
      | _ => destruct x eqn:?
      end
  end.

#[global] Arguments property : simpl never.
#[global] Arguments to_string !v : simpl nomatch.
#[global] Arguments displays : simpl never.
#[global] Arguments truthy : simpl never.
#[global] Arguments is_string : simpl never.

Ltac wire_case := split; [reflexivity | split; eauto].

(** The key listener went on: the key was Enter. *)
Ltac enter_pressed :=
  match goal with
  | Hkey : _ && _ = true |- _ => exact (proj1 (andb_prop _ _ Hkey))
  end.

Ltac execute := unfold_script; repeat (simpl; split_innermost); simpl.

(** ** Properties *)

Section Properties.

Context `{Host}.

Lemma truthy_string (text : string) :
  truthy (VStr text) = true <-> text <> "".
Proof.
  unfold truthy. rewrite negb_true_iff. apply String.eqb_neq.
Qed.

Lemma sent_question_not_empty (text : string) :
  negb (truthy (VStr text)) = false -> text <> "".
Proof.
  intros Hq. apply truthy_string. now apply negb_false_iff.
Qed.

Lemma displays_thinking (v : jsval) :
  is_string v "Thinking..." = true -> displays v = true.
Proof. intros Hv. unfold displays. now rewrite Hv. Qed.

Lemma displays_rendered (v : jsval) (html : string) :
  marked_parse v = Normal html -> displays v = true.
Proof. intros Hv. unfold displays. rewrite Hv. apply orb_true_r. Qed.

Lemma sendQuestion_falsy (question : jsval) (s : state) :
  truthy question = false -> sendQuestion question s = (Normal tt, s).
Proof. intros Hq. unfold sendQuestion. now rewrite Hq. Qed.

(** C10.  Sending the empty question does nothing: [sendQuestion] returns
    at once with the state as it was, so nothing is added to the history
    or the chat window, no request starts and no control changes; a quick
    prompt that is empty, and the ask button and the Enter key on an input
    that trims to the empty string, leave the state as it was. *)
Theorem empty_question_is_noop (s : state) :
  trim (questionInput_value (page s)) = "" ->
  sendQuestion (VStr "") s = (Normal tt, s) /\
  step (ClickQuickPrompt (Some "")) s = s /\
  step ClickAsk s = s /\
  step (PressKey "Enter") s = s.
Proof.
  intros Hempty. split; [now apply sendQuestion_falsy|].
  split; [reflexivity|].
  assert (Hclick : askButton_click s = (Normal tt, s)).
  { unfold askButton_click, askButton_onclick, gets, mbind, js_bind.
    destruct (askButton_disabled (page s)); [reflexivity|].
    rewrite Hempty. now apply sendQuestion_falsy. }
  split.
  - unfold step, run, dispatch. now rewrite Hclick.
  - unfold step, run, dispatch, questionInput_onkeypress, gets, mbind, js_bind.
    destruct (questionInput_disabled (page s)); [reflexivity|].
    destruct (_ && _); [now rewrite Hclick | reflexivity].
Qed.

Lemma step_history (s : state) (ev : event) :
  history_change (chatHistory s) ev (chatHistory (step ev s)).
Proof.
  destruct ev; execute;
    first [ apply history_kept
          | apply history_cleared
          | apply history_question;
              [first [reflexivity | enter_pressed]|];
              eauto using sent_question_not_empty
          | eapply history_answer; eauto using displays_thinking, displays_rendered ].
Qed.

(** C6.  In one event the chat history stays as it is, gets one record
    appended (the question on a send, the answer when an answer is
    received) or, on a click on the process button, becomes empty; the
    records it holds are never changed. *)
Theorem history_appended_or_cleared (s : state) (ev : event) :
  history_change (chatHistory s) ev (chatHistory (step ev s)) /\
  (chatHistory (step ev s) = [] \/
   forall i record,
     chatHistory s !! i = Some record ->
     chatHistory (step ev s) !! i = Some record).
Proof.
  split; [apply step_history|].
  destruct (step_history s ev) as [ev|ev question _ _|id data answer _ _|].
  - right. auto.
  - right. intros i record Hi. now apply lookup_app_l_Some.
  - right. intros i record Hi. now apply lookup_app_l_Some.
  - now left.
Qed.

(** *** Sending a question *)

Lemma find_op_fresh (s : state) (id : nat) :
  well_numbered s -> started s <= id -> find_op id (pending s) = None.
Proof.
  unfold well_numbered, find_op. intros Hs Hid.
  induction Hs as [|o p Ho _ IH]; [reflexivity|]. simpl.
  destruct (Nat.eqb_spec (fst o) id); [lia | exact IH].
Qed.

Lemma find_op_last (p : list (nat * async_op)) (id : nat) (op : async_op) :
  find_op id p = None -> find_op id (p ++ [(id, op)]) = Some op.
Proof.
  unfold find_op. induction p as [|o p IH]; simpl.
  - now rewrite Nat.eqb_refl.
  - destruct (Nat.eqb (fst o) id); [discriminate | exact IH].
Qed.

(** What [sendQuestion] does with a question that is not empty. *)
Lemma sendQuestion_sends (question : jsval) (s : state) :
  truthy question = true ->
  let sent := run (sendQuestion question) s in
  chatHistory sent = chatHistory s ++ [message_record "human" question] /\
  pending sent =
    pending s ++ [(started s, Fetch (ask_request question s)
                                    (AskChain (S (created (page s)))))] /\
  started sent = S (started s) /\
  askButton_disabled (page sent) = true /\
  questionInput_disabled (page sent) = true /\
  processButton_disabled (page sent) = processButton_disabled (page s) /\
  localStorage sent = localStorage s.
Proof.
  intros Hq. unfold run, sendQuestion. rewrite Hq. simpl.
  repeat split; reflexivity.
Qed.

(** The callback of a request of [sendQuestion] is its promise chain. *)
Lemma step_settles_ask (s : state) (id : nat) (req : request)
    (thinkingMessage : nat) (r : fetch_result) :
  find_op id (pending s) = Some (Fetch req (AskChain thinkingMessage)) ->
  step (Settles id (FetchSettled r)) s =
  run (ask_chain thinkingMessage r) (run (complete id) s).
Proof.
  intros Hop. unfold step, run, dispatch, settles, gets, mbind, js_bind.
  rewrite Hop. reflexivity.
Qed.

Lemma step_settles_process (s : state) (id : nat) (req : request)
    (r : fetch_result) :
  find_op id (pending s) = Some (Fetch req ProcessChain) ->
  step (Settles id (FetchSettled r)) s =
  run (process_chain r) (run (complete id) s).
Proof.
  intros Hop. unfold step, run, dispatch, settles, gets, mbind, js_bind.
  rewrite Hop. reflexivity.
Qed.

Lemma ask_chain_answer (s : state) (thinkingMessage : nat)
    (data error answer : jsval) :
  property data "error" = Normal error ->
  truthy error = false ->
  property data "answer" = Normal answer ->
  displays answer = true ->
  chatHistory (run (ask_chain thinkingMessage (Resolved data)) s) =
  chatHistory s ++ [message_record "ai" answer].
Proof.
  intros Herror Hfalsy Hanswer Hshown. unfold displays in Hshown.
  unfold_script. rewrite Herror. simpl. rewrite Hfalsy, Hanswer. simpl.
  destruct (is_string answer "Thinking..."); [reflexivity|].
  destruct (marked_parse answer); [reflexivity | discriminate].
Qed.

Lemma ask_chain_failure (s : state) (thinkingMessage : nat)
    (r : fetch_result) (text : string) :
  ask_failure r = Some text ->
  chatHistory (run (ask_chain thinkingMessage r) s) = chatHistory s.
Proof.
  unfold ask_failure. intros Hfails. destruct r as [data|error].
  - destruct (property data "error") as [error|e] eqn:Herror.
    + destruct (truthy error) eqn:Htruthy; [|discriminate].
      unfold_script. rewrite Herror. simpl. rewrite Htruthy.
      execute; reflexivity.
    + unfold_script. rewrite Herror. execute; reflexivity.
  - execute; reflexivity.
Qed.

(** C1, as the code has it.  A question that is sent and answered
    without an error field, by an answer the chat displays (one
    [marked.parse] renders, as it does a string), adds the human record
    and then the AI record to the chat history and changes it in no other
    way; the answer adds its record whatever happened since the question
    was sent. *)
Theorem answered_question_appends_two (s : state) (question : string)
    (data answer : jsval) :
  question <> "" ->
  well_numbered s ->
  property data "error" = Normal VUndefined ->
  property data "answer" = Normal answer ->
  displays answer = true ->
  let sent := run (sendQuestion (VStr question)) s in
  let answered := step (Settles (started s) (FetchSettled (Resolved data))) sent in
  chatHistory sent = chatHistory s ++ [message_record "human" (VStr question)] /\
  chatHistory answered =
    chatHistory s ++ [message_record "human" (VStr question);
                      message_record "ai" answer] /\
  (forall later id req thinkingMessage,
      find_op id (pending later) = Some (Fetch req (AskChain thinkingMessage)) ->
      chatHistory (step (Settles id (FetchSettled (Resolved data))) later) =
      chatHistory later ++ [message_record "ai" answer]).
Proof.
  intros Hq Hs Herror Hanswer Hshown sent answered.
  assert (Hlater : forall later id req thinkingMessage,
      find_op id (pending later) = Some (Fetch req (AskChain thinkingMessage)) ->
      chatHistory (step (Settles id (FetchSettled (Resolved data))) later) =
      chatHistory later ++ [message_record "ai" answer]).
  { intros later id req t Hop. rewrite (step_settles_ask _ _ _ _ _ Hop).
    now rewrite (ask_chain_answer _ _ _ _ _ Herror eq_refl Hanswer Hshown). }
  destruct (sendQuestion_sends (VStr question) s) as (Hh & Hp & _);
    [now apply truthy_string|].
  fold sent in Hh, Hp.
  split; [exact Hh|]. split; [|exact Hlater].
  unfold answered. erewrite Hlater.
  - rewrite Hh, <- app_assoc. reflexivity.
  - rewrite Hp. apply find_op_last, find_op_fresh; [exact Hs | lia].
Qed.

Lemma ask_chain_error_only (s : state) (thinkingMessage : nat) (error : jsval) :
  refuses_non_strings ->
  chatHistory (run (ask_chain thinkingMessage (Resolved (VObj [("error", error)]))) s)
  = chatHistory s.
Proof.
  intros Hmarked. destruct (truthy error) eqn:Htruthy.
  - eapply ask_chain_failure.
    unfold ask_failure.
    change (property (VObj [("error", error)]) "error") with (Normal error).
    simpl. now rewrite Htruthy.
  - unfold_script.
    change (property (VObj [("error", error)]) "error") with (Normal error).
    simpl. rewrite Htruthy.
    change (property (VObj [("error", error)]) "answer") with (Normal VUndefined).
    simpl.
    destruct (marked_parse VUndefined) as [html|e] eqn:Hparse.
    + destruct (Hmarked _ _ Hparse) as [text Htext]. discriminate Htext.
    + execute; reflexivity.
Qed.

(** C9.  A question whose send fails, by a network error or by an error
    the backend reports, leaves its human record in the chat history and
    adds no AI record: the failure keeps the history as it finds it,
    whatever happened since the question was sent.  A response that is
    just [{error}] does so even when its error is falsy, as [marked.parse]
    refuses the answer it lacks. *)
Theorem failed_question_keeps_human_record (s : state) (question : string)
    (r : fetch_result) (text : string) :
  question <> "" ->
  well_numbered s ->
  ask_failure r = Some text ->
  let sent := run (sendQuestion (VStr question)) s in
  let failed := step (Settles (started s) (FetchSettled r)) sent in
  chatHistory failed = chatHistory s ++ [message_record "human" (VStr question)] /\
  (forall later id req thinkingMessage,
      find_op id (pending later) = Some (Fetch req (AskChain thinkingMessage)) ->
      chatHistory (step (Settles id (FetchSettled r)) later) = chatHistory later) /\
  (refuses_non_strings ->
   forall later id req thinkingMessage error,
     find_op id (pending later) = Some (Fetch req (AskChain thinkingMessage)) ->
     chatHistory (step (Settles id (FetchSettled (Resolved (VObj [("error", error)]))))
                       later)
     = chatHistory later).
Proof.
  intros Hq Hs Hfails sent failed.
  assert (Hlater : forall later id req thinkingMessage,
      find_op id (pending later) = Some (Fetch req (AskChain thinkingMessage)) ->
      chatHistory (step (Settles id (FetchSettled r)) later) = chatHistory later).
  { intros later id req t Hop. rewrite (step_settles_ask _ _ _ _ _ Hop).
    now rewrite (ask_chain_failure _ _ _ _ Hfails). }
  destruct (sendQuestion_sends (VStr question) s) as (Hh & Hp & _);
    [now apply truthy_string|].
  fold sent in Hh, Hp.
  split; [|split; [exact Hlater|]].
  - unfold failed. erewrite Hlater; [exact Hh|].
    rewrite Hp. apply find_op_last, find_op_fresh; [exact Hs | lia].
  - intros Hmarked later id req t error Hop.
    rewrite (step_settles_ask _ _ _ _ _ Hop).
    now rewrite ask_chain_error_only.
Qed.

(** *** The numbering of the operations in flight *)

Lemma well_numbered_later (p : list (nat * async_op)) (n m : nat) :
  Forall (fun o => fst o < n) p -> n <= m -> Forall (fun o => fst o < m) p.
Proof.
  intros Hp Hnm. eapply Forall_impl; [exact Hp|]. simpl. intros o Ho. lia.
Qed.

Lemma well_numbered_remove (p : list (nat * async_op)) (n id : nat) :
  Forall (fun o => fst o < n) p -> Forall (fun o => fst o < n) (remove_op id p).
Proof.
  intros Hp. unfold remove_op. induction Hp as [|o p Ho _ IH]; simpl.
  - constructor.
  - destruct (negb _); [constructor|]; assumption.
Qed.

Lemma well_numbered_start (p : list (nat * async_op)) (n : nat) (op : async_op) :
  Forall (fun o => fst o < n) p -> Forall (fun o => fst o < S n) (p ++ [(n, op)]).
Proof.
  intros Hp. apply Forall_app. split.
  - eapply well_numbered_later; [exact Hp | lia].
  - repeat constructor.
Qed.

Lemma step_well_numbered (s : state) (ev : event) :
  well_numbered s -> well_numbered (step ev s).
Proof.
  unfold well_numbered. intros Hs.
  destruct ev; execute;
    auto using well_numbered_start, well_numbered_remove.
Qed.

Lemma reachable_well_numbered (s : state) :
  reachable s -> well_numbered s.
Proof.
  induction 1 as [html storage _|s ev _ IH|s html _ _].
  - constructor.
  - now apply step_well_numbered.
  - constructor.
Qed.

Lemma reachable_steps (s : state) (evs : list event) :
  reachable s -> reachable (steps evs s).
Proof.
  revert s. induction evs as [|ev evs IH]; intros s Hs; [exact Hs|].
  apply IH. now apply reachable_step.
Qed.

(** *** The records of the history *)

Lemma displayed_is_string (v : jsval) :
  refuses_non_strings -> displays v = true -> exists text, v = VStr text.
Proof.
  intros Hmarked Hv. unfold displays in Hv.
  destruct v; try (destruct (marked_parse _) as [html|e] eqn:Hparse;
                   [apply (Hmarked _ _ Hparse) | discriminate]).
  now exists s.
Qed.

Lemma human_record_shape (question : string) :
  speaker_record "type" (message_record "human" (VStr question)).
Proof. exists "human", question. split; [reflexivity | now left]. Qed.

Lemma ai_record_shape (answer : string) :
  speaker_record "type" (message_record "ai" (VStr answer)).
Proof. exists "ai", answer. split; [reflexivity | now right]. Qed.

(** C2, as the code has it.  Every record of the chat history, in every
    state the popup reaches, has the shape
    [{type: "human"|"ai", content: string}]: the field naming the speaker
    is called type, and its value is "human" or "ai"; the content of an AI
    record is a string because [marked.parse] takes strings only. *)
Theorem history_records_have_type (s : state) :
  refuses_non_strings ->
  reachable s ->
  Forall (speaker_record "type") (chatHistory s).
Proof.
  intros Hmarked Hs.
  induction Hs as [html storage _|s ev _ IH|s html _ _]; [constructor| |constructor].
  destruct (step_history s ev) as [ev|ev question _ _|id data answer _ Hshown|].
  - exact IH.
  - apply Forall_app. split; [exact IH|].
    repeat constructor. apply human_record_shape.
  - apply Forall_app. split; [exact IH|].
    destruct (displayed_is_string answer Hmarked Hshown) as [text ->].
    repeat constructor. apply ai_record_shape.
  - constructor.
Qed.

(** *** Requests *)

Lemma kept_operations (s : state) (p : list (nat * async_op)) :
  (forall o, In o p -> In o (pending s)) -> Forall (old_or_wire_format s) p.
Proof.
  intros Hp. apply List.Forall_forall. intros o Ho. left. now apply Hp.
Qed.

Lemma kept_after_remove (s : state) (id : nat) :
  Forall (old_or_wire_format s) (remove_op id (pending s)).
Proof.
  apply kept_operations. intros o Ho.
  unfold remove_op in Ho. now apply List.filter_In in Ho.
Qed.

Lemma kept_pending (s : state) :
  Forall (old_or_wire_format s) (pending s).
Proof. now apply kept_operations. Qed.

Lemma step_requests (s : state) (ev : event) :
  Forall (old_or_wire_format s) (pending (step ev s)).
Proof.
  destruct ev; execute.
  all: repeat (apply Forall_app; split);
         auto using kept_pending, kept_after_remove.
  all: constructor; [right; simpl | constructor].
  all: try exact I.
  all: split; [reflexivity | split; [reflexivity|] ].
  all: first [ left; wire_case
             | right; left; wire_case
             | right; right; left; wire_case
             | right; right; right; wire_case ].
Qed.

(** *** The theme *)

Lemma open_popup_loads (html : dom) (storage : gmap string string) :
  data_theme (page (open_popup html storage)) = Some (savedTheme storage) /\
  localStorage (open_popup html storage) = storage.
Proof. split; reflexivity. Qed.

Lemma savedTheme_stored (storage : gmap string string) (theme : string) :
  light_or_dark theme ->
  storage !! "theme" = Some theme \/ (storage !! "theme" = None /\ theme = "light") ->
  savedTheme storage = theme.
Proof.
  unfold savedTheme. intros Htheme [-> | [-> ->]]; [|reflexivity].
  destruct Htheme as [-> | ->]; reflexivity.
Qed.

Lemma open_popup_theme (html : dom) (storage : gmap string string) (theme : string) :
  light_or_dark theme ->
  storage !! "theme" = Some theme \/ (storage !! "theme" = None /\ theme = "light") ->
  current_theme (open_popup html storage) theme.
Proof.
  intros Htheme Hstored. unfold current_theme.
  destruct (open_popup_loads html storage) as [-> ->].
  now rewrite (savedTheme_stored _ _ Htheme Hstored).
Qed.

Lemma toggle_or_not (ev : event) :
  ev = ClickThemeToggle \/ ev <> ClickThemeToggle.
Proof. destruct ev; (now left) || (right; discriminate). Qed.

Lemma step_keeps_theme (s : state) (ev : event) :
  ev <> ClickThemeToggle ->
  data_theme (page (step ev s)) = data_theme (page s) /\
  localStorage (step ev s) = localStorage s.
Proof.
  intros Hev. destruct ev; [| | | | |congruence|]; execute; split; reflexivity.
Qed.

Lemma toggle_flips (s : state) (theme : string) :
  light_or_dark theme ->
  data_theme (page s) = Some theme ->
  exists toggled,
    light_or_dark toggled /\ toggled <> theme /\
    data_theme (page (step ClickThemeToggle s)) = Some toggled /\
    localStorage (step ClickThemeToggle s) !! "theme" = Some toggled.
Proof.
  intros Htheme Hshown.
  unfold step, run, dispatch, themeToggle_onclick, gets, mbind, js_bind.
  rewrite Hshown. simpl.
  destruct Htheme as [-> | ->]; simpl.
  - exists "dark". repeat split; [now right | discriminate | apply lookup_insert_eq].
  - exists "light". repeat split; [now left | discriminate | apply lookup_insert_eq].
Qed.

Lemma step_storage_elsewhere (s : state) (ev : event) (key : string) :
  key <> "theme" ->
  localStorage (step ev s) !! key = localStorage s !! key.
Proof.
  intros Hkey.
  assert (Htoggle : localStorage (step ClickThemeToggle s) !! key
                    = localStorage s !! key).
  { unfold step, run, dispatch, themeToggle_onclick, gets, mbind, js_bind.
    simpl. apply lookup_insert_ne. congruence. }
  destruct (toggle_or_not ev) as [->|Hev]; [exact Htoggle|].
  now rewrite (proj2 (step_keeps_theme s ev Hev)).
Qed.

Lemma reachable_theme (s : state) :
  reachable s -> exists theme, light_or_dark theme /\ current_theme s theme.
Proof.
  induction 1 as [html storage Hnone|s ev _ (theme & Htheme & Hshown & Hstored)
                 |s html _ (theme & Htheme & Hshown & Hstored)].
  - exists "light". split; [now left|].
    apply open_popup_theme; [now left|]. right. split; [exact Hnone | reflexivity].
  - destruct (toggle_or_not ev) as [->|Hev].
    + destruct (toggle_flips s theme Htheme Hshown)
        as (toggled & Htoggled & _ & Hshown' & Hstored').
      exists toggled. split; [exact Htoggled|]. split; [exact Hshown' | now left].
    + exists theme. split; [exact Htheme|].
      destruct (step_keeps_theme s ev Hev) as [Hd Hl].
      unfold current_theme. rewrite Hd, Hl. now split.
  - exists theme. split; [exact Htheme|]. now apply open_popup_theme.
Qed.

(** C8.  The theme is one string kept in the storage under one key, and it
    is "light" or "dark" in every state the popup reaches: the page shows
    the stored theme, light when nothing is stored; opening the popup
    loads that theme; a click on the toggle shows the other theme and
    stores it; and nothing else is ever written to the storage. *)
Theorem theme_preference (s : state) :
  reachable s ->
  exists theme,
    light_or_dark theme /\
    current_theme s theme /\
    (forall html, current_theme (open_popup html (localStorage s)) theme) /\
    (exists toggled,
        light_or_dark toggled /\ toggled <> theme /\
        data_theme (page (step ClickThemeToggle s)) = Some toggled /\
        localStorage (step ClickThemeToggle s) !! "theme" = Some toggled) /\
    (forall ev, ev <> ClickThemeToggle -> localStorage (step ev s) = localStorage s) /\
    (forall ev key, key <> "theme" ->
                    localStorage (step ev s) !! key = localStorage s !! key).
Proof.
  intros Hs. destruct (reachable_theme s Hs) as (theme & Htheme & Hcurrent).
  exists theme. split; [exact Htheme|]. split; [exact Hcurrent|].
  split; [|split; [|split]].
  - intros html. apply open_popup_theme; [exact Htheme | apply Hcurrent].
  - apply toggle_flips; [exact Htheme | apply Hcurrent].
  - intros ev Hev. apply step_keeps_theme, Hev.
  - intros ev key Hkey. now apply step_storage_elsewhere.
Qed.

(** *** Failures *)

Lemma filter_twice (id : nat) (w : list node) :
  filter (fun n => node_id n <> id) (filter (fun n => node_id n <> id) w)
  = filter (fun n => node_id n <> id) w.
Proof.
  induction w as [|n w IH]; [reflexivity|].
  rewrite (filter_cons _ n w). destruct (decide (node_id n <> id)) as [Hn|Hn].
  - rewrite (filter_cons _ n _), decide_True by exact Hn. now rewrite IH.
  - exact IH.
Qed.

Lemma error_text_not_thinking (text : string) :
  is_string (VStr ("❌ Error: " +:+ text)) "Thinking..." = false.
Proof. reflexivity. Qed.

Lemma ask_chain_failure_shown (s : state) (thinkingMessage : nat)
    (r : fetch_result) (text : string) :
  renders_strings ->
  ask_failure r = Some text ->
  let after := run (ask_chain thinkingMessage r) s in
  error_shown text
    (filter (fun n => node_id n <> thinkingMessage) (chatWindow (page s))) s after /\
  status_kept s after /\
  pending after = pending s /\ started after = started s.
Proof.
  intros Hrenders Hfails.
  destruct (Hrenders ("❌ Error: " +:+ text)) as [html Hhtml].
  pose proof (error_text_not_thinking text) as Hnot.
  unfold error_shown, status_kept.
  destruct r as [data|error]; unfold ask_failure in Hfails.
  - destruct (property data "error") as [error|e] eqn:Herror.
    + destruct (truthy error) eqn:Htruthy; [|discriminate].
      destruct (to_string error) as [shown|e] eqn:Hshown;
        injection Hfails as <-;
        unfold_script; rewrite Herror; simpl; rewrite Htruthy; simpl;
        rewrite Hshown; simpl; rewrite Hhtml; simpl;
        rewrite ?filter_twice; repeat split; eauto.
    + injection Hfails as <-.
      unfold_script. rewrite Herror. simpl. rewrite Hhtml. simpl.
      rewrite filter_twice. repeat split; eauto.
  - injection Hfails as <-.
    unfold_script. simpl. rewrite Hhtml. simpl. repeat split; eauto.
Qed.



Lemma step_settles_tabs (s : state) (id : nat) (tabs : list tab) :
  find_op id (pending s) = Some TabsQuery ->
  step (Settles id (TabsFound tabs)) s =
  run (tabs_callback tabs) (run (complete id) s).
Proof.
  intros Hop. unfold step, run, dispatch, settles, gets, mbind, js_bind.
  rewrite Hop. reflexivity.
Qed.

Lemma step_settles_script (s : state) (id : nat) (tabId : Z)
    (lastError : bool) (injectionResults : option (list jsval)) :
  find_op id (pending s) = Some (ExecuteScript tabId) ->
  step (Settles id (ScriptInjected lastError injectionResults)) s =
  run (script_callback lastError injectionResults) (run (complete id) s).
Proof.
  intros Hop. unfold step, run, dispatch, settles, gets, mbind, js_bind.
  rewrite Hop. reflexivity.
Qed.

Lemma tabs_callback_missing_video_id (s : state) (tabs : list tab) :
  missing_video_id tabs = true ->
  run (tabs_callback tabs) s = run (showError (VStr "Could not find YouTube video ID")) s.
Proof.
  unfold missing_video_id, run, tabs_callback. intros Hmissing. f_equal.
  destruct tabs as [|activeTab rest]; [discriminate|].
  destruct (tab_url activeTab) as [pageUrl|]; [|discriminate].
  apply andb_true_iff in Hmissing as [Hmissing Hvideo].
  apply andb_true_iff in Hmissing as [Hpdf Hwatch].
  apply negb_true_iff in Hpdf. rewrite Hpdf, Hwatch.
  destruct (search_param pageUrl "v") as [videoId|]; [|reflexivity].
  apply negb_true_iff in Hvideo. now rewrite Hvideo.
Qed.

Lemma script_callback_inaccessible (s : state) (lastError : bool)
    (injectionResults : option (list jsval)) :
  page_inaccessible lastError injectionResults = true ->
  run (script_callback lastError injectionResults) s =
  run (showError (VStr "Could not access this page")) s.
Proof.
  unfold page_inaccessible, run, script_callback.
  destruct lastError, injectionResults as [[|pageHtml rest]|];
    simpl; (reflexivity || discriminate).
Qed.



(** *** The controls *)

Lemma ask_chain_enables (s : state) (thinkingMessage : nat) (r : fetch_result) :
  let settled := run (ask_chain thinkingMessage r) s in
  askButton_disabled (page settled) = false /\
  questionInput_disabled (page settled) = false.
Proof. destruct r; execute; split; reflexivity. Qed.

Lemma processButton_onclick_disables (s : state) :
  let clicked := run processButton_onclick s in
  askButton_disabled (page clicked) = true /\
  questionInput_disabled (page clicked) = true /\
  processButton_disabled (page clicked) = true.
Proof. execute; repeat split; reflexivity. Qed.

Lemma step_click_process (s : state) :
  processButton_disabled (page s) = false ->
  step ClickProcess s = run processButton_onclick s.
Proof.
  intros Henabled. unfold step, run, dispatch, gets, mbind, js_bind.
  now rewrite Henabled.
Qed.

Lemma process_chain_controls (s : state) (r : fetch_result) :
  let settled := run (process_chain r) s in
  processButton_disabled (page settled) = false /\
  match process_failure r with
  | None =>
      askButton_disabled (page settled) = false /\
      questionInput_disabled (page settled) = false
  | Some _ =>
      askButton_disabled (page settled) = askButton_disabled (page s) /\
      questionInput_disabled (page settled) = questionInput_disabled (page s)
  end.
Proof.
  unfold process_failure.
  destruct r as [data|error];
    [destruct (property data "error") as [error|e] eqn:Herror;
     [destruct (truthy error) eqn:Htruthy|]|];
    unfold_script; rewrite ?Herror; simpl; rewrite ?Htruthy;
    execute; repeat split; reflexivity.
Qed.

(** C4, as the code has it.  A question send disables the ask button and
    the question input, and its request, however it ends, enables both
    again.  A click on the process button disables the ask button, the
    question input and the process button; the request of the processing,
    however it ends, enables the process button again, and it enables the
    ask button and the question input when it succeeds and leaves them as
    they are when it fails. *)
Theorem controls_follow_requests (s : state) :
  (forall question,
      truthy question = true ->
      let sent := run (sendQuestion question) s in
      askButton_disabled (page sent) = true /\
      questionInput_disabled (page sent) = true) /\
  (forall id req thinkingMessage r,
      find_op id (pending s) = Some (Fetch req (AskChain thinkingMessage)) ->
      let settled := step (Settles id (FetchSettled r)) s in
      askButton_disabled (page settled) = false /\
      questionInput_disabled (page settled) = false) /\
  (processButton_disabled (page s) = false ->
   let clicked := step ClickProcess s in
   askButton_disabled (page clicked) = true /\
   questionInput_disabled (page clicked) = true /\
   processButton_disabled (page clicked) = true) /\
  (forall id req r,
      find_op id (pending s) = Some (Fetch req ProcessChain) ->
      let settled := step (Settles id (FetchSettled r)) s in
      processButton_disabled (page settled) = false /\
      match process_failure r with
      | None =>
          askButton_disabled (page settled) = false /\
          questionInput_disabled (page settled) = false
      | Some _ =>
          askButton_disabled (page settled) = askButton_disabled (page s) /\
          questionInput_disabled (page settled) = questionInput_disabled (page s)
      end).
Proof.
  split; [|split; [|split]].
  - intros question Hq sent.
    destruct (sendQuestion_sends question s Hq) as (_ & _ & _ & Hask & Hinput & _).
    now split.
  - intros id req thinkingMessage r Hop. rewrite (step_settles_ask _ _ _ _ _ Hop).
    apply ask_chain_enables.
  - intros Henabled. rewrite (step_click_process _ Henabled).
    apply processButton_onclick_disables.
  - intros id req r Hop. rewrite (step_settles_process _ _ _ _ Hop).
    apply (process_chain_controls (run (complete id) s) r).
Qed.

(** *** One request at a time *)

(** The ask button and the Enter key start nothing while the ask button
    is disabled. *)
Lemma ask_paths_are_guarded (s : state) (key : string) :
  askButton_disabled (page s) = true ->
  step ClickAsk s = s /\ step (PressKey key) s = s.
Proof.
  intros Hdisabled.
  unfold step, run, dispatch, questionInput_onkeypress, askButton_click,
    gets, mbind, js_bind.
  destruct (questionInput_disabled (page s)), (String.eqb key "Enter");
    simpl; rewrite ?Hdisabled; simpl; rewrite ?Hdisabled; split; reflexivity.
Qed.

(** A quick prompt sends whatever is in flight: its listener tests no
    control. *)
Lemma quick_prompt_always_sends (s : state) (prompt : string) :
  prompt <> "" ->
  in_flight (step (ClickQuickPrompt (Some prompt)) s) = S (in_flight s).
Proof.
  intros Hprompt. unfold step, dispatch, quickPrompt_onclick, in_flight.
  destruct (sendQuestion_sends (VStr prompt) s) as (_ & -> & _);
    [now apply truthy_string|].
  rewrite List.filter_app, length_app. simpl. lia.
Qed.

(** *** The four endpoints *)

(** The click on the ask button, when enabled, sends the trimmed input. *)
Lemma ask_click_sends (s : state) :
  askButton_disabled (page s) = false ->
  step ClickAsk s = run (sendQuestion (VStr (trim (questionInput_value (page s))))) s.
Proof.
  intros Henabled.
  unfold step, run, dispatch, askButton_click, askButton_onclick, gets, mbind, js_bind.
  now rewrite Henabled.
Qed.

(** What the callback of [chrome.tabs.query] starts for each kind of
    page. *)
Lemma tabs_callback_requests (s : state) (activeTab : tab) (rest : list tab)
    (pageUrl : string) :
  renders_strings ->
  tab_url activeTab = Some pageUrl ->
  let after := run (tabs_callback (activeTab :: rest)) s in
  (endsWith pageUrl ".pdf" = true ->
   pending after =
     pending s ++ [(started s,
                    Fetch (json_post "http://127.0.0.1:5000/process_pdf"
                                     (VObj [("pdf_url", VStr pageUrl)]))
                          ProcessChain)]) /\
  (endsWith pageUrl ".pdf" = false ->
   includes pageUrl "youtube.com/watch" = true ->
   forall videoId,
     search_param pageUrl "v" = Some videoId -> videoId <> "" ->
     pending after =
       pending s ++ [(started s,
                      Fetch (json_post "http://127.0.0.1:5000/process_youtube"
                                       (VObj [("videoId", VStr videoId)]))
                            ProcessChain)]) /\
  (endsWith pageUrl ".pdf" = false ->
   includes pageUrl "youtube.com/watch" = false ->
   pending after = pending s ++ [(started s, ExecuteScript (tab_id activeTab))]).
Proof.
  intros Hrenders Hurl.
  destruct (Hrenders "📄 Found a PDF! Fetching and reading...") as [pdf Hpdf].
  destruct (Hrenders "🎥 Found a YouTube video! Fetching transcript...") as [video Hvideo].
  destruct (Hrenders "🌐 Reading the webpage content...") as [web Hweb].
  cbv zeta. unfold tabs_callback. rewrite Hurl.
  split; [|split].
  - intros ->. unfold_script. simpl. rewrite Hpdf. reflexivity.
  - intros -> -> videoId -> Hid. apply truthy_string in Hid. rewrite Hid.
    unfold_script. simpl. rewrite Hvideo. reflexivity.
  - intros -> ->. unfold_script. simpl. rewrite Hweb. reflexivity.
Qed.

(** The chain of [sendQuestion] on a response with a truthy [error], and on
    one with a falsy [error] and an answer [marked.parse] renders. *)
Lemma ask_chain_error_field (s : state) (thinkingMessage : nat)
    (data error : jsval) (text : string) :
  renders_strings ->
  property data "error" = Normal error ->
  truthy error = true ->
  to_string error = Normal text ->
  let after := run (ask_chain thinkingMessage (Resolved data)) s in
  chatHistory after = chatHistory s /\
  error_shown text
    (filter (fun n => node_id n <> thinkingMessage) (chatWindow (page s))) s after.
Proof.
  intros Hrenders Herror Htruthy Htext.
  assert (Hfails : ask_failure (Resolved data) = Some text).
  { unfold ask_failure. now rewrite Herror, Htruthy, Htext. }
  split.
  - apply (ask_chain_failure _ _ _ _ Hfails).
  - apply (ask_chain_failure_shown _ _ _ _ Hrenders Hfails).
Qed.

Lemma ask_chain_answer_field (s : state) (thinkingMessage : nat)
    (data error answer : jsval) (html : string) :
  property data "error" = Normal error ->
  truthy error = false ->
  property data "answer" = Normal answer ->
  marked_parse answer = Normal html ->
  let after := run (ask_chain thinkingMessage (Resolved data)) s in
  chatHistory after = chatHistory s ++ [message_record "ai" answer] /\
  chatWindow (page after) =
    filter (fun n => node_id n <> thinkingMessage) (chatWindow (page s))
    ++ [ai_message (created (page s)) (answer_body answer html)].
Proof.
  intros Herror Hfalsy Hanswer Hhtml. unfold answer_body, ai_message.
  unfold_script. rewrite Herror. simpl. rewrite Hfalsy, Hanswer. simpl.
  destruct (is_string answer "Thinking..."); simpl; rewrite ?Hhtml; simpl;
    split; reflexivity.
Qed.

(** C7.  Every request an event starts is a POST of JSON to one of the
    four endpoints under http://127.0.0.1:5000, and each endpoint gets its
    body: a question (from a quick prompt or the ask button) posts
    [{question, history}] to /ask, the history holding the question
    already; the active tab posts [{pdf_url}] to /process_pdf when its
    address ends in .pdf, [{videoId}] to /process_youtube when it is a
    watch page naming a video, and otherwise has the script injected whose
    result is posted as [{content}] to /process_webpage.  The response of
    /ask is read by its [error] first: a truthy one is shown as the error
    and adds nothing to the history; otherwise its [answer] is shown and
    recorded as the AI record. *)
Theorem requests_have_wire_format (s : state) :
  renders_strings ->
  (forall ev, Forall (old_or_wire_format s) (pending (step ev s))) /\
  (forall question,
      question <> "" ->
      let ask :=
        Fetch (json_post "http://127.0.0.1:5000/ask"
                 (VObj [("question", VStr question);
                        ("history",
                         VArr (chatHistory s ++ [message_record "human" (VStr question)]))]))
              (AskChain (S (created (page s)))) in
      pending (step (ClickQuickPrompt (Some question)) s)
      = pending s ++ [(started s, ask)] /\
      (askButton_disabled (page s) = false ->
       trim (questionInput_value (page s)) = question ->
       pending (step ClickAsk s) = pending s ++ [(started s, ask)])) /\
  (forall id activeTab rest pageUrl,
      find_op id (pending s) = Some TabsQuery ->
      tab_url activeTab = Some pageUrl ->
      let after := step (Settles id (TabsFound (activeTab :: rest))) s in
      (endsWith pageUrl ".pdf" = true ->
       pending after =
         remove_op id (pending s)
         ++ [(started s,
              Fetch (json_post "http://127.0.0.1:5000/process_pdf"
                               (VObj [("pdf_url", VStr pageUrl)]))
                    ProcessChain)]) /\
      (endsWith pageUrl ".pdf" = false ->
       includes pageUrl "youtube.com/watch" = true ->
       forall videoId,
         search_param pageUrl "v" = Some videoId -> videoId <> "" ->
         pending after =
           remove_op id (pending s)
           ++ [(started s,
                Fetch (json_post "http://127.0.0.1:5000/process_youtube"
                                 (VObj [("videoId", VStr videoId)]))
                      ProcessChain)]) /\
      (endsWith pageUrl ".pdf" = false ->
       includes pageUrl "youtube.com/watch" = false ->
       pending after =
         remove_op id (pending s) ++ [(started s, ExecuteScript (tab_id activeTab))])) /\
  (forall id tabId pageHtml rest,
      find_op id (pending s) = Some (ExecuteScript tabId) ->
      pending (step (Settles id (ScriptInjected false (Some (pageHtml :: rest)))) s)
      = remove_op id (pending s)
        ++ [(started s,
             Fetch (json_post "http://127.0.0.1:5000/process_webpage"
                              (VObj [("content", pageHtml)]))
                   ProcessChain)]) /\
  (forall id req thinkingMessage data error,
      find_op id (pending s) = Some (Fetch req (AskChain thinkingMessage)) ->
      property data "error" = Normal error ->
      let after := step (Settles id (FetchSettled (Resolved data))) s in
      let kept := filter (fun n => node_id n <> thinkingMessage) (chatWindow (page s)) in
      (truthy error = true ->
       forall text,
         to_string error = Normal text ->
         chatHistory after = chatHistory s /\
         error_shown text kept s after) /\
      (truthy error = false ->
       forall answer html,
         property data "answer" = Normal answer ->
         marked_parse answer = Normal html ->
         chatHistory after = chatHistory s ++ [message_record "ai" answer] /\
         chatWindow (page after)
         = kept ++ [ai_message (created (page s)) (answer_body answer html)])).
Proof.
  intros Hrenders.
  split; [intros ev; apply step_requests|].
  split; [|split; [|split]].
  - intros question Hq ask.
    destruct (sendQuestion_sends (VStr question) s) as (_ & Hp & _);
      [now apply truthy_string|].
    split; [exact Hp|].
    intros Henabled <-. rewrite (ask_click_sends _ Henabled). exact Hp.
  - intros id activeTab rest pageUrl Hop Hurl after. unfold after.
    rewrite (step_settles_tabs _ _ _ Hop).
    exact (tabs_callback_requests (run (complete id) s) activeTab rest pageUrl
             Hrenders Hurl).
  - intros id tabId pageHtml rest Hop.
    rewrite (step_settles_script _ _ _ _ _ Hop). reflexivity.
  - intros id req thinkingMessage data error Hop Herror after kept.
    unfold after, kept. rewrite (step_settles_ask _ _ _ _ _ Hop). split.
    + intros Htruthy text Htext.
      exact (ask_chain_error_field (run (complete id) s) thinkingMessage data error text
               Hrenders Herror Htruthy Htext).
    + intros Hfalsy answer html Hanswer Hhtml.
      exact (ask_chain_answer_field (run (complete id) s) thinkingMessage data error
               answer html Herror Hfalsy Hanswer Hhtml).
Qed.

End Properties.

(** ** Further properties of the script *)

Ltac identified_nodes nodes_filter nodes_later :=
  repeat first
    [ apply Forall_nil_2
    | apply Forall_app; split
    | apply Forall_cons; split; [simpl; lia|]
    | apply nodes_filter
    | assumption
    | eapply nodes_later; [eassumption | simpl; lia] ].

Ltac identified_pending thinking_remove thinking_later :=
  repeat first
    [ apply Forall_nil_2
    | apply Forall_app; split
    | apply Forall_cons; split; [simpl; first [exact I | lia]|]
    | apply thinking_remove
    | assumption
    | eapply thinking_later; [eassumption | simpl; lia] ].

Section Behaviour.

Context `{Host}.

(** *** The transcript of a question *)

Lemma nodes_later (w : list node) (n m : nat) :
  Forall (fun x => node_id x < n) w -> n <= m -> Forall (fun x => node_id x < m) w.
Proof. intros Hw Hnm. eapply Forall_impl; [exact Hw|]. simpl. intros x Hx. lia. Qed.

Lemma nodes_filter (w : list node) (n id : nat) :
  Forall (fun x => node_id x < n) w ->
  Forall (fun x => node_id x < n) (filter (fun x => node_id x <> id) w).
Proof.
  intros Hw. apply List.Forall_forall. intros x Hx.
  apply list_elem_of_In, list_elem_of_filter in Hx as [_ Hx].
  rewrite List.Forall_forall in Hw. now apply Hw, list_elem_of_In.
Qed.

Lemma thinking_later (p : list (nat * async_op)) (n m : nat) :
  Forall (fun o => match thinking_of o with Some t => t < n | None => True end) p ->
  n <= m ->
  Forall (fun o => match thinking_of o with Some t => t < m | None => True end) p.
Proof.
  intros Hp Hnm. eapply Forall_impl; [exact Hp|]. simpl. intros o Ho.
  destruct (thinking_of o); [lia | exact I].
Qed.

Lemma thinking_remove (p : list (nat * async_op)) (n id : nat) :
  Forall (fun o => match thinking_of o with Some t => t < n | None => True end) p ->
  Forall (fun o => match thinking_of o with Some t => t < n | None => True end)
         (remove_op id p).
Proof.
  intros Hp. unfold remove_op. induction Hp as [|o p Ho _ IH]; simpl.
  - constructor.
  - destruct (negb _); [constructor|]; assumption.
Qed.

(** Every event keeps the elements identified. *)
Lemma step_identified (s : state) (ev : event) :
  identified s -> identified (step ev s).
Proof.
  unfold identified. intros [Hnodes Hpending].
  destruct ev; execute;
    (split; [identified_nodes nodes_filter nodes_later
            | identified_pending thinking_remove thinking_later]).
Qed.

Lemma steps_identified (s : state) (evs : list event) :
  identified s -> identified (steps evs s).
Proof.
  revert s. induction evs as [|ev evs IH]; intros s Hs; [exact Hs|].
  apply IH. now apply step_identified.
Qed.

Lemma find_op_pending (p : list (nat * async_op)) (id : nat) (op : async_op) :
  find_op id p = Some op -> In (id, op) p.
Proof.
  unfold find_op. intros Hop.
  destruct (List.find _ p) as [[id' op']|] eqn:Hfind; [|discriminate].
  apply List.find_some in Hfind as [Hin Hid]. simpl in *.
  apply Nat.eqb_eq in Hid. injection Hop as <-. now subst.
Qed.

(** What the chain of a question does to the chat window: the typing
    indicator goes and at most one message comes. *)
Lemma ask_chain_window (s : state) (thinkingMessage : nat) (r : fetch_result) :
  exists shown,
    chatWindow (page (run (ask_chain thinkingMessage r) s)) =
      filter (fun n => node_id n <> thinkingMessage) (chatWindow (page s)) ++ shown /\
    length shown <= 1 /\
    Forall (fun n => created (page s) <= node_id n /\
                     className n = "message ai-message") shown.
Proof.
  destruct r; execute; rewrite ?filter_twice;
    first [ exists []; rewrite app_nil_r;
            repeat split; [simpl; lia | constructor]
          | eexists [_]; repeat split;
            [simpl; lia | constructor; [split; [simpl; lia | reflexivity] | constructor]] ].
Qed.

(** X3.  When the request of a question settles, whatever the result and
    whatever [marked.parse] does, its typing indicator leaves the chat
    window, no other message leaves it, and at most one message, an AI
    message, is added. *)
Theorem typing_indicator_removed (s : state) (id : nat) (req : request)
    (thinkingMessage : nat) (r : fetch_result) :
  identified s ->
  find_op id (pending s) = Some (Fetch req (AskChain thinkingMessage)) ->
  let after := step (Settles id (FetchSettled r)) s in
  Forall (fun n => node_id n <> thinkingMessage) (chatWindow (page after)) /\
  exists shown,
    chatWindow (page after) =
      filter (fun n => node_id n <> thinkingMessage) (chatWindow (page s)) ++ shown /\
    length shown <= 1 /\
    Forall (fun n => className n = "message ai-message") shown.
Proof.
  intros [_ Hpending] Hop after. unfold after.
  rewrite (step_settles_ask _ _ _ _ _ Hop).
  destruct (ask_chain_window (run (complete id) s) thinkingMessage r)
    as (shown & Hwindow & Hlength & Hshown).
  assert (Hearlier : thinkingMessage < created (page s)).
  { rewrite List.Forall_forall in Hpending.
    apply (Hpending _ (find_op_pending _ _ _ Hop)). }
  split.
  - rewrite Hwindow. apply Forall_app. split.
    + apply List.Forall_forall. intros n Hn.
      now apply list_elem_of_In, list_elem_of_filter in Hn as [Hn _].
    + eapply Forall_impl; [exact Hshown|]. simpl. intros n [Hn _].
      change (created (page (run (complete id) s))) with (created (page s)) in Hn. lia.
  - exists shown. split; [exact Hwindow|]. split; [exact Hlength|].
    eapply Forall_impl; [exact Hshown|]. simpl. now intros n [_ Hn].
Qed.

Lemma filter_thinking (w : list node) (c : nat) (text : string) :
  Forall (fun n => node_id n < c) w ->
  filter (fun n => node_id n <> S c)
         (w ++ [user_message c text; ai_message (S c) TypingIndicator])
  = w ++ [user_message c text].
Proof.
  intros Hw. rewrite filter_app. f_equal.
  - induction Hw as [|n w Hn _ IH]; [reflexivity|].
    rewrite filter_cons, decide_True by lia. now rewrite IH.
  - rewrite filter_cons, decide_True by (simpl; lia).
    rewrite filter_cons, decide_False by (simpl; lia). reflexivity.
Qed.

(** What [sendQuestion] shows. *)
Lemma sendQuestion_shows (question : jsval) (s : state) :
  truthy question = true ->
  let sent := run (sendQuestion question) s in
  chatWindow (page sent) =
    chatWindow (page s) ++ [user_message (created (page s)) (textContent_of question);
                            ai_message (S (created (page s))) TypingIndicator] /\
  created (page sent) = S (S (created (page s))) /\
  emptyState (page sent) = false /\
  questionInput_value (page sent) = "".
Proof.
  intros Hq. unfold run, sendQuestion. rewrite Hq. simpl.
  rewrite <- app_assoc. repeat split; reflexivity.
Qed.

Lemma ask_chain_answer_window (s : state) (thinkingMessage : nat)
    (data error answer : jsval) (html : string) :
  property data "error" = Normal error ->
  truthy error = false ->
  property data "answer" = Normal answer ->
  marked_parse answer = Normal html ->
  let settled := run (ask_chain thinkingMessage (Resolved data)) s in
  chatWindow (page settled) =
    filter (fun n => node_id n <> thinkingMessage) (chatWindow (page s))
    ++ [ai_message (created (page s)) (answer_body answer html)] /\
  askButton_disabled (page settled) = false /\
  questionInput_disabled (page settled) = false /\
  questionInput_value (page settled) = questionInput_value (page s).
Proof.
  intros Herror Hfalsy Hanswer Hhtml. unfold answer_body.
  unfold_script. rewrite Herror. simpl. rewrite Hfalsy, Hanswer. simpl.
  destruct (is_string answer "Thinking..."); simpl.
  - repeat split; reflexivity.
  - rewrite Hhtml. simpl. repeat split; reflexivity.
Qed.

(** X1.  The transcript of an answered question.  The question is added
    as plain text, never as markup, with a typing indicator below it; when
    the answer comes the indicator is gone and the answer follows the
    question, rendered by [marked.parse] (as typing dots when the answer is
    the very text "Thinking..."); the input is empty and enabled again. *)
Theorem answered_question_transcript (s : state) (question : string)
    (data error answer : jsval) (html : string) :
  question <> "" ->
  well_numbered s ->
  Forall (fun n => node_id n < created (page s)) (chatWindow (page s)) ->
  property data "error" = Normal error ->
  truthy error = false ->
  property data "answer" = Normal answer ->
  marked_parse answer = Normal html ->
  let sent := run (sendQuestion (VStr question)) s in
  let answered := step (Settles (started s) (FetchSettled (Resolved data))) sent in
  chatWindow (page sent) =
    chatWindow (page s) ++ [user_message (created (page s)) question;
                            ai_message (S (created (page s))) TypingIndicator] /\
  chatWindow (page answered) =
    chatWindow (page s) ++ [user_message (created (page s)) question;
                            ai_message (S (S (created (page s))))
                                       (answer_body answer html)] /\
  questionInput_value (page answered) = "" /\
  questionInput_disabled (page answered) = false /\
  askButton_disabled (page answered) = false.
Proof.
  intros Hq Hs Hfresh Herror Hfalsy Hanswer Hhtml sent answered.
  assert (Htruthy : truthy (VStr question) = true) by now apply truthy_string.
  destruct (sendQuestion_sends (VStr question) s Htruthy) as (_ & Hp & _).
  destruct (sendQuestion_shows (VStr question) s Htruthy) as (Hw & Hc & _ & Hv).
  fold sent in Hp, Hw, Hc, Hv. simpl in Hw.
  split; [exact Hw|].
  assert (Hop : find_op (started s) (pending sent)
                = Some (Fetch (ask_request (VStr question) s)
                              (AskChain (S (created (page s)))))).
  { rewrite Hp. apply find_op_last, find_op_fresh; [exact Hs | lia]. }
  unfold answered. rewrite (step_settles_ask _ _ _ _ _ Hop).
  destruct (ask_chain_answer_window (run (complete (started s)) sent)
              (S (created (page s))) data error answer html
              Herror Hfalsy Hanswer Hhtml) as (-> & -> & -> & ->).
  change (page (run (complete (started s)) sent)) with (page sent).
  rewrite Hw, Hc, Hv, (filter_thinking _ _ _ Hfresh), <- app_assoc.
  repeat split; reflexivity.
Qed.

(** X2.  The transcript of a failed question: the question as plain text,
    then the one message that tells the error, and no typing indicator. *)
Theorem failed_question_transcript (s : state) (question : string)
    (r : fetch_result) (text : string) :
  renders_strings ->
  question <> "" ->
  well_numbered s ->
  Forall (fun n => node_id n < created (page s)) (chatWindow (page s)) ->
  ask_failure r = Some text ->
  let sent := run (sendQuestion (VStr question)) s in
  let failed := step (Settles (started s) (FetchSettled r)) sent in
  exists html,
    marked_parse (VStr ("❌ Error: " +:+ text)) = Normal html /\
    chatWindow (page failed) =
      chatWindow (page s) ++ [user_message (created (page s)) question;
                              ai_message (S (S (created (page s)))) (Rendered html)].
Proof.
  intros Hrenders Hq Hs Hfresh Hfails sent failed.
  assert (Htruthy : truthy (VStr question) = true) by now apply truthy_string.
  destruct (sendQuestion_sends (VStr question) s Htruthy) as (_ & Hp & _).
  destruct (sendQuestion_shows (VStr question) s Htruthy) as (Hw & Hc & _).
  fold sent in Hp, Hw, Hc. simpl in Hw.
  assert (Hop : find_op (started s) (pending sent)
                = Some (Fetch (ask_request (VStr question) s)
                              (AskChain (S (created (page s)))))).
  { rewrite Hp. apply find_op_last, find_op_fresh; [exact Hs | lia]. }
  unfold failed. rewrite (step_settles_ask _ _ _ _ _ Hop).
  destruct (ask_chain_failure_shown (run (complete (started s)) sent)
              (S (created (page s))) r text Hrenders Hfails)
    as ((html & Hhtml & Hshown) & _).
  exists html. split; [exact Hhtml|]. rewrite Hshown.
  change (page (run (complete (started s)) sent)) with (page sent).
  rewrite Hw, Hc, (filter_thinking _ _ _ Hfresh), <- app_assoc. reflexivity.
Qed.

(** *** Questions beside the processing *)

Lemma ask_chain_beside (s : state) (thinkingMessage : nat) (r : fetch_result) :
  beside_questions (run (ask_chain thinkingMessage r) s) = beside_questions s.
Proof. unfold beside_questions. destruct r; execute; reflexivity. Qed.

(** X4.  A question, from the ask button, the Enter key or a quick prompt,
    and the settling of its request, whatever the result, leave alone the
    status badge, the process button and its spinner, the visibility of
    the quick prompts, the theme and the storage. *)
Theorem questions_leave_processing_alone (s : state) (ev : event) :
  question_event s ev = true ->
  beside_questions (step ev s) = beside_questions s.
Proof.
  intros Hev. destruct ev as [text| |key|prompt| | |id r]; try discriminate Hev.
  - unfold beside_questions. execute; reflexivity.
  - unfold beside_questions. execute; reflexivity.
  - unfold beside_questions. execute; reflexivity.
  - simpl in Hev. destruct r as [fr|tabs|lastError results]; try discriminate Hev.
    destruct (find_op id (pending s)) as [[req [thinkingMessage|]| |tabId]|] eqn:Hop;
      try discriminate Hev.
    rewrite (step_settles_ask _ _ _ _ _ Hop).
    now rewrite ask_chain_beside.
Qed.

(** X5.  In the question input the Enter key is a click on the ask button,
    and every other key does nothing. *)
Theorem enter_is_ask_click (s : state) (key : string) :
  questionInput_disabled (page s) = false ->
  step (PressKey key) s = if String.eqb key "Enter" then step ClickAsk s else s.
Proof.
  intros Hinput.
  unfold step, run, dispatch, questionInput_onkeypress, askButton_click, gets, mbind, js_bind.
  rewrite Hinput.
  destruct (String.eqb key "Enter"), (askButton_disabled (page s)) eqn:Hask;
    simpl; rewrite ?Hask; reflexivity.
Qed.

(** X6.  One event starts at most one asynchronous operation (a request,
    the query of the tabs or the injection of the script), and the only
    operation it takes away is the one that settles. *)
Theorem one_operation_per_event (s : state) (ev : event) :
  exists kept new,
    pending (step ev s) = kept ++ new /\
    length new <= 1 /\
    Forall (fun o => fst o = started s) new /\
    started (step ev s) = started s + length new /\
    (kept = pending s \/ exists id r, ev = Settles id r /\ kept = remove_op id (pending s)).
Proof.
  destruct ev; execute.
  all: first
    [ exists (pending s), []; rewrite app_nil_r;
      repeat split; [simpl; lia | constructor | simpl; lia | now left]
    | eexists (pending s), [_];
      repeat split; [simpl; lia | repeat constructor | simpl; lia | now left]
    | eexists (remove_op _ (pending s)), []; rewrite app_nil_r;
      repeat split; [simpl; lia | constructor | simpl; lia | right; eauto]
    | eexists (remove_op _ (pending s)), [_];
      repeat split; [simpl; lia | repeat constructor | simpl; lia | right; eauto] ].
Qed.

Lemma step_carries (s : state) (ev : event) :
  Forall carries_own_question (pending s) ->
  Forall carries_own_question (pending (step ev s)).
Proof.
  intros Hs.
  assert (Hremove : forall id, Forall carries_own_question (remove_op id (pending s))).
  { intros id. apply List.Forall_forall. intros o Ho.
    unfold remove_op in Ho. apply List.filter_In in Ho as [Ho _].
    rewrite List.Forall_forall in Hs. now apply Hs. }
  destruct ev; execute.
  all: repeat (apply Forall_app; split); auto.
  all: constructor; [unfold carries_own_question; simpl | constructor].
  all: try exact I.
  all: eauto using sent_question_not_empty.
Qed.

(** X7.  In every state the popup reaches, the request of each question in
    flight carries a question that is a string and not empty, and a
    history whose last record is the human record of that very question:
    the backend gets the question twice. *)
Theorem questions_in_flight_carry_themselves (s : state) :
  reachable s -> Forall carries_own_question (pending s).
Proof.
  induction 1 as [html storage _|s ev _ IH|s html _ _].
  - constructor.
  - now apply step_carries.
  - constructor.
Qed.

(** *** Processing a page *)

Lemma remove_op_last (p : list (nat * async_op)) (n : nat) (op : async_op) :
  Forall (fun o => fst o < n) p -> remove_op n (p ++ [(n, op)]) = p.
Proof.
  intros Hp. unfold remove_op. rewrite List.filter_app. simpl.
  rewrite Nat.eqb_refl. simpl. rewrite app_nil_r.
  induction Hp as [|o p Ho _ IH]; [reflexivity|]. simpl.
  destruct (Nat.eqb_spec (fst o) n); [lia|]. simpl. now rewrite IH.
Qed.

(** The operation started last settles: it is found and taken away. *)
Lemma settle_last (s : state) (p : list (nat * async_op)) (id : nat) (op : async_op) :
  pending s = p ++ [(id, op)] ->
  Forall (fun o => fst o < id) p ->
  find_op id (pending s) = Some op /\
  pending (run (complete id) s) = p /\
  started (run (complete id) s) = started s /\
  page (run (complete id) s) = page s /\
  chatHistory (run (complete id) s) = chatHistory s.
Proof.
  intros Hp Hfresh. split.
  - rewrite Hp. apply find_op_last. clear Hp. unfold find_op.
    induction Hfresh as [|o q Ho _ IH]; [reflexivity|]. simpl.
    destruct (Nat.eqb_spec (fst o) id); [lia | exact IH].
  - unfold run, complete, modify. simpl. rewrite Hp.
    now rewrite remove_op_last.
Qed.

Lemma numbered_below (s : state) (n : nat) :
  well_numbered s -> started s <= n -> Forall (fun o => fst o < n) (pending s).
Proof. intros Hs Hn. now apply (well_numbered_later _ (started s)). Qed.

(** What the click on the process button does. *)
Lemma process_click_starts (s : state) :
  renders_strings ->
  processButton_disabled (page s) = false ->
  let clicked := step ClickProcess s in
  popup_processing clicked /\
  chatHistory clicked = [] /\
  (exists html,
      chatWindow (page clicked) = [ai_message (created (page s)) (Rendered html)]) /\
  pending clicked = pending s ++ [(started s, TabsQuery)] /\
  started clicked = S (started s).
Proof.
  intros Hrenders Henabled. rewrite (step_click_process _ Henabled).
  destruct (Hrenders "🔍 Figuring out what to read...") as [html Hhtml].
  unfold popup_processing, controls_are. unfold_script. simpl.
  rewrite Hhtml. simpl. repeat split; eauto.
Qed.





(** X9.  When [chrome.tabs.query] gives no tab, or a tab without its
    address, the callback throws before it shows or starts anything: the
    popup stays as the click left it, at "Processing..." with the ask
    button, the question input and the process button disabled, and
    nothing is in flight that could enable them. *)
Theorem tabs_without_address_leave_processing (s : state) (tabs : list tab) :
  renders_strings ->
  well_numbered s ->
  processButton_disabled (page s) = false ->
  no_address tabs = true ->
  let clicked := step ClickProcess s in
  let after := step (Settles (started s) (TabsFound tabs)) clicked in
  popup_processing after /\
  page after = page clicked /\
  chatHistory after = [] /\
  pending after = pending s.
Proof.
  intros Hrenders Hs Henabled Hnone clicked after.
  destruct (process_click_starts s Hrenders Henabled) as (Hprocessing & Hh1 & _ & Hp1 & _).
  fold clicked in Hprocessing, Hh1, Hp1.
  destruct (settle_last _ _ _ _ Hp1 (numbered_below s _ Hs (le_n _)))
    as (Hop1 & Hp1' & _ & Hpage & Hh1').
  assert (Hafter : after = run (complete (started s)) clicked).
  { unfold after. rewrite (step_settles_tabs _ _ _ Hop1).
    unfold no_address in Hnone. unfold run at 1, tabs_callback.
    destruct tabs as [|activeTab rest]; [reflexivity|].
    destruct (tab_url activeTab); [discriminate | reflexivity]. }
  rewrite Hafter. split; [|split; [exact Hpage | split; [congruence | exact Hp1']]].
  unfold popup_processing, controls_are in *. now rewrite Hpage.
Qed.

Lemma showError_retry (s : state) (text : string) :
  renders_strings -> retry_only s (run (showError (VStr text)) s).
Proof.
  intros Hrenders. destruct (Hrenders ("❌ Error: " +:+ text)) as [html Hhtml].
  unfold retry_only. unfold_script. simpl. rewrite Hhtml. simpl.
  repeat split; reflexivity.
Qed.

Lemma process_chain_retry (s : state) (r : fetch_result) (text : string) :
  process_failure r = Some text -> retry_only s (run (process_chain r) s).
Proof.
  unfold retry_only, process_failure. intros Hfails.
  destruct r as [data|error];
    [destruct (property data "error") as [error|e] eqn:Herror;
     [destruct (truthy error) eqn:Htruthy; [|discriminate]|]|];
    unfold_script; rewrite ?Herror; simpl; rewrite ?Htruthy;
    execute; repeat split; reflexivity.
Qed.

(** X10.  After every failure of the processing of a page (the request,
    an error the backend reports, a watch page without a video, a page
    that cannot be read) the process button is enabled and its spinner
    off, so the user can try again; the ask button, the question input,
    the quick prompts and the history are as the failure found them. *)
Theorem failed_processing_allows_retry (s : state) (id : nat) (op : async_op)
    (r : async_result) (text : string) :
  renders_strings ->
  find_op id (pending s) = Some op ->
  processing_op op = true ->
  failure op r = Some text ->
  retry_only s (step (Settles id r) s).
Proof.
  intros Hrenders Hop Hkind Hfails.
  destruct op as [req [thinkingMessage|]| |tabId], r as [fr|tabs|lastError results];
    try discriminate; simpl in Hfails.
  - rewrite (step_settles_process _ _ _ _ Hop).
    apply (process_chain_retry (run (complete id) s) fr text Hfails).
  - rewrite (step_settles_tabs _ _ _ Hop).
    destruct (missing_video_id tabs) eqn:Hmissing; [|discriminate].
    rewrite (tabs_callback_missing_video_id _ _ Hmissing).
    apply (showError_retry (run (complete id) s) _ Hrenders).
  - rewrite (step_settles_script _ _ _ _ _ Hop).
    destruct (page_inaccessible lastError results) eqn:Hnone; [|discriminate].
    rewrite (script_callback_inaccessible _ _ _ Hnone).
    apply (showError_retry (run (complete id) s) _ Hrenders).
Qed.

(** *** What the page keeps *)

(** X11.  In one event the status badge stays as it is or becomes one of
    three: "processing" with the click on the process button, "ready" when
    a request settles, "error" with its message when an operation settles;
    the script never sets the badge to "idle". *)
Theorem badge_changes (s : state) (ev : event) :
  badge_change (page s) ev (page (step ev s)).
Proof.
  destruct ev; execute;
    first [ now apply badge_kept
          | now apply badge_processing
          | now apply badge_ready
          | now eapply badge_error ].
Qed.

(** X12.  The spinner of the process button is on exactly while the
    button is disabled: every event keeps the two together. *)
Theorem loading_while_disabled (s : state) (ev : event) :
  processButton_loading (page s) = processButton_disabled (page s) ->
  processButton_loading (page (step ev s)) = processButton_disabled (page (step ev s)).
Proof.
  intros Hs. destruct ev; execute; congruence.
Qed.


(** *** The theme *)

Lemma step_keeps_icon (s : state) (ev : event) :
  ev <> ClickThemeToggle -> theme_icon (page (step ev s)) = theme_icon (page s).
Proof.
  intros Hev. destruct ev; [| | | | |congruence|]; execute; reflexivity.
Qed.

Lemma reachable_icon (s : state) : reachable s -> icon_matches s.
Proof.
  induction 1 as [html storage _|s ev _ (theme & Htheme & Hicon)|s html _ _].
  - eexists. split; reflexivity.
  - destruct (toggle_or_not ev) as [->|Hev].
    + unfold icon_matches, step, run, dispatch, themeToggle_onclick, gets, mbind, js_bind.
      rewrite Htheme. simpl. eexists. split; reflexivity.
    + exists theme. rewrite (step_keeps_icon _ _ Hev).
      now rewrite (proj1 (step_keeps_theme s ev Hev)).
  - eexists. split; reflexivity.
Qed.

(** X14.  In every state the popup reaches, two clicks on the toggle bring
    the page back as it was, theme and icon included, and leave the theme
    shown in the storage; the history and the operations in flight are
    untouched. *)
Theorem toggle_twice_restores (s : state) :
  reachable s ->
  let twice := step ClickThemeToggle (step ClickThemeToggle s) in
  page twice = page s /\
  (exists theme, data_theme (page s) = Some theme /\
                 localStorage twice !! "theme" = Some theme) /\
  chatHistory twice = chatHistory s /\
  pending twice = pending s.
Proof.
  intros Hs twice.
  destruct (reachable_theme s Hs) as (theme & Hkind & Hshown & _).
  destruct (reachable_icon s Hs) as (theme' & Hshown' & Hicon).
  assert (theme' = theme) by congruence. subst theme'.
  unfold twice, step, run, dispatch, themeToggle_onclick, gets, mbind, js_bind.
  simpl. rewrite Hshown. simpl.
  split; [|split; [|split; reflexivity]].
  - destruct (page s) as [w e c sc st ad qd qv pd pl qp dt ti]. simpl in *.
    subst dt ti. destruct Hkind as [-> | ->]; reflexivity.
  - exists theme. split; [reflexivity|].
    destruct Hkind as [-> | ->]; simpl; apply lookup_insert_eq.
Qed.

End Behaviour.

(** *** The copy button *)

Lemma copy_step_reverting (ev : CopyButton.copy_event) (b : CopyButton.button) :
  CopyButton.reverting b -> CopyButton.reverting (CopyButton.copy_step ev b).
Proof.
  unfold CopyButton.reverting. intros Hb. destruct ev; simpl.
  - exact Hb.
  - destruct (CopyButton.writes b); [exact Hb|]. right. simpl. split; [reflexivity | lia].
  - destruct (CopyButton.writes b); exact Hb.
  - destruct (CopyButton.timers b) eqn:Htimers; [|now left].
    destruct Hb as [Hb | [_ Hb]]; [now left | lia].
Qed.

Lemma copy_steps_reverting (evs : list CopyButton.copy_event) (b : CopyButton.button) :
  CopyButton.reverting b -> CopyButton.reverting (CopyButton.copy_steps evs b).
Proof.
  revert b. induction evs as [|ev evs IH]; intros b Hb; [exact Hb|].
  apply IH. now apply copy_step_reverting.
Qed.

(** X15.  However the clicks on a copy button, the writes to the clipboard
    and the timers interleave, once no timer is left the button shows the
    clipboard icon again: the check mark never stays. *)
Theorem copy_label_reverts (evs : list CopyButton.copy_event) :
  CopyButton.timers (CopyButton.copy_steps evs CopyButton.created_button) = 0 ->
  CopyButton.label (CopyButton.copy_steps evs CopyButton.created_button) = "📋".
Proof.
  intros Hidle.
  destruct (copy_steps_reverting evs CopyButton.created_button) as [Hlabel | [_ Htimers]];
    [now left | exact Hlabel | lia].
Qed.

(** ** The properties at work on the sample page *)

Import Sample.

Lemma empty_question_is_noop_witness :
  trim (questionInput_value (page ready)) = "" /\
  step ClickAsk ready = ready.
Proof.
  assert (Hempty : trim (questionInput_value (page ready)) = "")
    by (vm_compute; reflexivity).
  split; [exact Hempty|].
  exact (proj1 (proj2 (proj2 (empty_question_is_noop ready Hempty)))).
Defined.

Lemma sample_renders_strings : renders_strings.
Proof. intros text. eexists. reflexivity. Qed.

Lemma sample_refuses_non_strings : refuses_non_strings.
Proof. intros v html Hv. destruct v; try discriminate Hv. now eexists. Qed.

Lemma ready_reachable : reachable ready.
Proof. apply reachable_steps, reachable_first, lookup_empty. Qed.

Lemma ready_well_numbered : well_numbered ready.
Proof. apply reachable_well_numbered, ready_reachable. Qed.

(** The four endpoints are in use: a question, a PDF, a video and a web
    page each start a request to their own. *)
Lemma four_endpoints_in_use :
  let video := {| tab_id := 8; tab_url := Some "https://www.youtube.com/watch?v=abc" |} in
  let article := {| tab_id := 9; tab_url := Some "https://example.org/article" |} in
  let urls (s : state) :=
    omap (fun o => match snd o with
                   | Fetch req _ => Some (url req, body_json req)
                   | _ => None
                   end) (pending s) in
  urls (step (ClickQuickPrompt (Some "Summarize")) ready)
  = [("http://127.0.0.1:5000/ask",
      VObj [("question", VStr "Summarize");
            ("history", VArr [message_record "human" (VStr "Summarize")])])] /\
  urls (steps [ClickProcess; Settles 2 (TabsFound [pdf_tab])] ready)
  = [("http://127.0.0.1:5000/process_pdf",
      VObj [("pdf_url", VStr "https://example.org/paper.pdf")])] /\
  urls (steps [ClickProcess; Settles 2 (TabsFound [video])] ready)
  = [("http://127.0.0.1:5000/process_youtube", VObj [("videoId", VStr "abc")])] /\
  urls (steps [ClickProcess; Settles 2 (TabsFound [article]);
               Settles 3 (ScriptInjected false (Some [VStr "<html></html>"]))] ready)
  = [("http://127.0.0.1:5000/process_webpage", VObj [("content", VStr "<html></html>")])].
Proof. vm_compute. repeat split; reflexivity. Qed.

Lemma answered_question_appends_two_witness :
  let data := VObj [("answer", VStr "It is.")] in
  let sent := run (sendQuestion (VStr "Summarize")) ready in
  let answered := step (Settles (started ready) (FetchSettled (Resolved data))) sent in
  chatHistory answered =
    chatHistory ready ++ [message_record "human" (VStr "Summarize");
                          message_record "ai" (VStr "It is.")].
Proof.
  intros data sent answered.
  refine (proj1 (proj2 (answered_question_appends_two
                          ready "Summarize" data (VStr "It is.") _ _ _ _ _))).
  - discriminate.
  - exact ready_well_numbered.
  - reflexivity.
  - reflexivity.
  - reflexivity.
Defined.

(** C1, as the spec has it, fails: a response without an error field and
    without an answer is no failure the backend reports, yet [marked.parse]
    throws on the answer it lacks before line 106 is reached, and the
    question adds its human record only. *)
Lemma answer_missing_appends_no_ai_record :
  let data := VObj [] in
  let sent := run (sendQuestion (VStr "Summarize")) ready in
  let answered := step (Settles (started ready) (FetchSettled (Resolved data))) sent in
  property data "error" = Normal VUndefined /\
  ask_failure (Resolved data) = None /\
  property data "answer" = Normal VUndefined /\
  displays VUndefined = false /\
  chatHistory sent = chatHistory ready ++ [message_record "human" (VStr "Summarize")] /\
  chatHistory answered = chatHistory sent.
Proof. vm_compute. repeat split; reflexivity. Qed.

Lemma failed_question_keeps_human_record_witness :
  let r := Resolved (VObj [("error", VStr "No page was processed")]) in
  let sent := run (sendQuestion (VStr "Summarize")) ready in
  let failed := step (Settles (started ready) (FetchSettled r)) sent in
  chatHistory failed = chatHistory ready ++ [message_record "human" (VStr "Summarize")].
Proof.
  intros r sent failed.
  refine (proj1 (failed_question_keeps_human_record
                   ready "Summarize" r "No page was processed" _ _ _)).
  - discriminate.
  - exact ready_well_numbered.
  - reflexivity.
Defined.

(** C2, as the spec has it, fails: after one question the chat history
    holds a record whose speaker is under [type]; it has no field [role]. *)
Lemma history_record_names_no_role :
  let asked := step (ClickQuickPrompt (Some "Summarize")) ready in
  reachable asked /\
  chatHistory asked = [VObj [("type", VStr "human"); ("content", VStr "Summarize")]] /\
  ~ Forall (speaker_record "role") (chatHistory asked).
Proof.
  intros asked.
  assert (Hhistory : chatHistory asked
                     = [VObj [("type", VStr "human"); ("content", VStr "Summarize")]])
    by (vm_compute; reflexivity).
  split; [apply reachable_step, ready_reachable|]. split; [exact Hhistory|].
  rewrite Hhistory. intros Hrole.
  apply Forall_inv in Hrole. destruct Hrole as (speaker & content & Hshape & _).
  discriminate Hshape.
Qed.

Lemma history_records_have_type_witness :
  Forall (speaker_record "type")
         (chatHistory
            (steps [ClickQuickPrompt (Some "Summarize");
                    Settles 2 (FetchSettled (Resolved (VObj [("answer", VStr "It is.")])))]
                   ready)).
Proof.
  apply history_records_have_type.
  - exact sample_refuses_non_strings.
  - apply reachable_steps, ready_reachable.
Defined.



(** C4, as the spec has it, fails: when a page is processed again and the
    processing fails, its request is over and the ask button and the
    question input, enabled before, stay disabled; and while a question is
    in flight the process button is enabled. *)
Lemma failed_processing_keeps_ask_disabled :
  let failed :=
    steps [ClickProcess; Settles 2 (TabsFound [pdf_tab]);
           Settles 3 (FetchSettled (Resolved (VObj [("error", VStr "No text found")])))]
          ready in
  let asked := step (ClickQuickPrompt (Some "Summarize")) ready in
  controls_are false ready /\
  (in_flight failed = 0 /\
   askButton_disabled (page failed) = true /\
   questionInput_disabled (page failed) = true /\
   ~ controls_are false failed) /\
  (in_flight asked = 1 /\
   processButton_disabled (page asked) = false /\
   ~ controls_are true asked).
Proof.
  intros failed asked.
  assert (Hask : askButton_disabled (page failed) = true) by (vm_compute; reflexivity).
  assert (Hprocess : processButton_disabled (page asked) = false)
    by (vm_compute; reflexivity).
  split; [vm_compute; repeat split; reflexivity|]. split.
  - split; [vm_compute; reflexivity|]. split; [exact Hask|].
    split; [vm_compute; reflexivity|].
    intros (Henabled & _). rewrite Hask in Henabled. discriminate Henabled.
  - split; [vm_compute; reflexivity|]. split; [exact Hprocess|].
    intros (_ & _ & Hdisabled). rewrite Hprocess in Hdisabled. discriminate Hdisabled.
Qed.

Lemma controls_follow_requests_witness :
  let asked := step (ClickQuickPrompt (Some "Summarize")) ready in
  let settled := step (Settles 2 (FetchSettled (Rejected (JsError "Failed to fetch")))) asked in
  askButton_disabled (page settled) = false /\
  questionInput_disabled (page settled) = false.
Proof.
  intros asked settled.
  refine (proj1 (proj2 (controls_follow_requests asked))
            2 (ask_request (VStr "Summarize") ready) 4 _ _).
  vm_compute. reflexivity.
Defined.

(** C5.  On the page ready for questions, one click on a quick prompt
    starts a request and disables the ask button; a second click on a
    quick prompt starts a second request while the first is in flight, and
    so does a click on the process button. *)
Theorem quick_prompt_starts_second_request :
  let first := step (ClickQuickPrompt (Some "Summarize")) ready in
  let second := step (ClickQuickPrompt (Some "Summarize")) first in
  let processed := steps [ClickProcess; Settles 3 (TabsFound [pdf_tab])] first in
  in_flight ready = 0 /\
  (in_flight first = 1 /\ askButton_disabled (page first) = true) /\
  (reachable second /\ in_flight second = 2) /\
  (reachable processed /\ in_flight processed = 2).
Proof.
  intros first second processed.
  assert (Hfirst : reachable first) by apply reachable_step, ready_reachable.
  split; [vm_compute; reflexivity|].
  split; [split; vm_compute; reflexivity|].
  split; (split; [|vm_compute; reflexivity]).
  - now apply reachable_step.
  - now apply reachable_steps.
Qed.

Lemma requests_have_wire_format_witness :
  let ask :=
    Fetch (json_post "http://127.0.0.1:5000/ask"
             (VObj [("question", VStr "Summarize");
                    ("history", VArr [message_record "human" (VStr "Summarize")])]))
          (AskChain 4) in
  pending (step (ClickQuickPrompt (Some "Summarize")) ready) = [(2, ask)].
Proof.
  refine (proj1 (proj1 (proj2 (requests_have_wire_format ready sample_renders_strings))
                   "Summarize" _)).
  discriminate.
Defined.

Lemma theme_preference_witness :
  exists theme,
    light_or_dark theme /\
    current_theme ready theme /\
    (forall html, current_theme (open_popup html (localStorage ready)) theme) /\
    (exists toggled,
        light_or_dark toggled /\ toggled <> theme /\
        data_theme (page (step ClickThemeToggle ready)) = Some toggled /\
        localStorage (step ClickThemeToggle ready) !! "theme" = Some toggled) /\
    (forall ev, ev <> ClickThemeToggle -> localStorage (step ev ready) = localStorage ready) /\
    (forall ev key, key <> "theme" ->
                    localStorage (step ev ready) !! key = localStorage ready !! key).
Proof. exact (theme_preference ready ready_reachable). Defined.

(** *** The further properties at work *)

Lemma ready_identified : identified ready.
Proof.
  apply steps_identified. split; constructor.
Qed.

Lemma asked_identified :
  identified (step (ClickQuickPrompt (Some "Summarize")) ready).
Proof. apply step_identified, ready_identified. Qed.

Lemma answered_question_transcript_witness :
  let data := VObj [("answer", VStr "It is.")] in
  let sent := run (sendQuestion (VStr "Summarize")) ready in
  let answered := step (Settles (started ready) (FetchSettled (Resolved data))) sent in
  chatWindow (page answered) =
    chatWindow (page ready) ++
    [user_message (created (page ready)) "Summarize";
     ai_message (S (S (created (page ready))))
                (answer_body (VStr "It is.") "<p>It is.</p>")].
Proof.
  intros data sent answered.
  refine (proj1 (proj2 (answered_question_transcript
                          ready "Summarize" data VUndefined (VStr "It is.")
                          "<p>It is.</p>" _ _ _ _ _ _ _))).
  - discriminate.
  - exact ready_well_numbered.
  - exact (proj1 ready_identified).
  - reflexivity.
  - reflexivity.
  - reflexivity.
  - reflexivity.
Defined.

Lemma failed_question_transcript_witness :
  let r := Rejected (JsError "Failed to fetch") in
  let sent := run (sendQuestion (VStr "Summarize")) ready in
  let failed := step (Settles (started ready) (FetchSettled r)) sent in
  exists html,
    marked_parse (VStr ("❌ Error: " +:+ "Failed to fetch")) = Normal html /\
    chatWindow (page failed) =
      chatWindow (page ready) ++
      [user_message (created (page ready)) "Summarize";
       ai_message (S (S (created (page ready)))) (Rendered html)].
Proof.
  intros r sent failed.
  refine (failed_question_transcript ready "Summarize" r "Failed to fetch" _ _ _ _ _).
  - exact sample_renders_strings.
  - discriminate.
  - exact ready_well_numbered.
  - exact (proj1 ready_identified).
  - reflexivity.
Defined.

Lemma typing_indicator_removed_witness :
  let asked := step (ClickQuickPrompt (Some "Summarize")) ready in
  let after := step (Settles 2 (FetchSettled (Rejected (JsError "Failed to fetch")))) asked in
  Forall (fun n => node_id n <> 4) (chatWindow (page after)).
Proof.
  intros asked after.
  refine (proj1 (typing_indicator_removed
                   asked 2 (ask_request (VStr "Summarize") ready) 4
                   (Rejected (JsError "Failed to fetch")) _ _)).
  - exact asked_identified.
  - vm_compute. reflexivity.
Defined.

Lemma questions_leave_processing_alone_witness :
  beside_questions (step (ClickQuickPrompt (Some "Summarize")) ready)
  = beside_questions ready.
Proof.
  apply (questions_leave_processing_alone ready (ClickQuickPrompt (Some "Summarize"))).
  reflexivity.
Defined.

Lemma enter_is_ask_click_witness :
  let typed := step (UserTypes " What is it about? ") ready in
  step (PressKey "Enter") typed = step ClickAsk typed /\
  step (PressKey "a") typed = typed.
Proof.
  intros typed.
  assert (Hinput : questionInput_disabled (page typed) = false)
    by (vm_compute; reflexivity).
  split.
  - exact (enter_is_ask_click typed "Enter" Hinput).
  - exact (enter_is_ask_click typed "a" Hinput).
Defined.

Lemma questions_in_flight_carry_themselves_witness :
  Forall carries_own_question
         (pending (step (ClickQuickPrompt (Some "Summarize")) ready)).
Proof.
  apply questions_in_flight_carry_themselves.
  apply reachable_step, ready_reachable.
Defined.


Lemma tabs_without_address_leave_processing_witness :
  let clicked := step ClickProcess ready in
  let after := step (Settles (started ready) (TabsFound [])) clicked in
  popup_processing after /\
  page after = page clicked /\
  chatHistory after = [] /\
  pending after = pending ready.
Proof.
  intros clicked after.
  refine (tabs_without_address_leave_processing ready [] _ _ _ _).
  - exact sample_renders_strings.
  - exact ready_well_numbered.
  - vm_compute. reflexivity.
  - reflexivity.
Defined.

Lemma failed_processing_allows_retry_witness :
  let video := {| tab_id := 8; tab_url := Some "https://www.youtube.com/watch?list=x" |} in
  let queried := step ClickProcess ready in
  retry_only queried (step (Settles 2 (TabsFound [video])) queried).
Proof.
  intros video queried.
  refine (failed_processing_allows_retry queried 2 TabsQuery (TabsFound [video])
            "Could not find YouTube video ID" _ _ _ _).
  - exact sample_renders_strings.
  - vm_compute. reflexivity.
  - reflexivity.
  - vm_compute. reflexivity.
Defined.

Lemma loading_while_disabled_witness :
  processButton_loading (page (step ClickProcess ready))
  = processButton_disabled (page (step ClickProcess ready)).
Proof.
  apply (loading_while_disabled ready ClickProcess). vm_compute. reflexivity.
Defined.


Lemma toggle_twice_restores_witness :
  let twice := step ClickThemeToggle (step ClickThemeToggle ready) in
  page twice = page ready /\
  (exists theme, data_theme (page ready) = Some theme /\
                 localStorage twice !! "theme" = Some theme) /\
  chatHistory twice = chatHistory ready /\
  pending twice = pending ready.
Proof. exact (toggle_twice_restores ready ready_reachable). Defined.

Lemma copy_label_reverts_witness :
  let evs := [CopyButton.Click; CopyButton.Click; CopyButton.Written;
              CopyButton.Written; CopyButton.TimerFired; CopyButton.TimerFired] in
  CopyButton.label (CopyButton.copy_steps evs CopyButton.created_button) = "📋".
Proof.
  intros evs. apply (copy_label_reverts evs). reflexivity.
Defined.
